(** * pushecr: build, tag and push a container image to ECR

    A shallow embedding of [main.go].  Go strings are byte strings
    ([string]), Go's [error] is an optional message, the profile table
    [map[string]ProfileConfig] is a [gmap], and every effect of the program
    (the package-level viper instance, the lines written to standard output,
    the external processes started with [exec.Command]) is threaded through
    an explicit world. *)

From stdpp Require Import base option list strings gmap fin_maps.
From Stdlib Require Import ZArith Ascii String Lia.

Local Open Scope string_scope.

(** Go's [error]: [None] is [nil], [Some msg] carries [err.Error()]. *)
Definition error := option string.

(** ** Terminal colours (the [const] block) *)

Definition ESC : ascii := ascii_of_nat 27.
Definition LF : ascii := ascii_of_nat 10.

Definition ColorReset : string := String ESC "[0m".
Definition ColorRed : string := String ESC "[31m".
Definition ColorGreen : string := String ESC "[32m".
Definition ColorYellow : string := String ESC "[33m".
Definition ColorCyan : string := String ESC "[36m".

(** ** Configuration records *)

Record ECRConfig := {
  Region : string;
  AccountID : string;
  Repository : string;
  ImageTag : string
}.

Record DockerConfig := {
  ImageName : string
}.

Record ProfileConfig := {
  ECR : ECRConfig;
  Docker : DockerConfig
}.

Record Config := {
  Profiles : gmap string ProfileConfig
}.

(** ** [fmt]: the verbs the program formats strings with

    [format] renders a format string against arguments that are already
    strings.  [%s] and [%v] (with or without the [+] flag) print the next
    argument as it is, [%%] prints a percent sign; [%w] does the same as
    [%s] when [wrap] is set, which is how [fmt.Errorf] prints the error it
    wraps.  A verb without an argument, a lone [%] at the end and
    arguments left over are rendered the way Go reports them.  Other verbs
    are outside the fragment the program uses; they are rendered as Go
    renders a verb that does not apply to a string. *)
Module fmt.

Definition is_verb (wrap : bool) (c : ascii) : bool :=
  Ascii.eqb c "s" || Ascii.eqb c "v" || (wrap && Ascii.eqb c "w").

Fixpoint extra_list (args : list string) : string :=
  match args with
  | [] => ""
  | [a] => "string=" +:+ a
  | a :: rest => "string=" +:+ a +:+ ", " +:+ extra_list rest
  end.

Definition extra (args : list string) : string :=
  match args with
  | [] => ""
  | _ => "%!(EXTRA " +:+ extra_list args +:+ ")"
  end.

Definition verb (wrap : bool) (v : ascii) (args : list string) : string :=
  match args with
  | [] => "%!" +:+ String v "(MISSING)"
  | a :: _ =>
      if is_verb wrap v then a
      else "%!" +:+ String v ("(string=" +:+ a +:+ ")")
  end.

Fixpoint format (wrap : bool) (f : string) (args : list string) {struct f} : string :=
  match f with
  | "" => extra args
  | String c f1 =>
      if negb (Ascii.eqb c "%") then String c (format wrap f1 args) else
      match f1 with
      | "" => "%!(NOVERB)" +:+ extra args
      | String v f2 =>
          if Ascii.eqb v "%" then String "%" (format wrap f2 args) else
          if Ascii.eqb v "+" then
            match f2 with
            | "" => "%!(NOVERB)" +:+ extra args
            | String v' f3 => verb wrap v' args +:+ format wrap f3 (tail args)
            end
          else verb wrap v args +:+ format wrap f2 (tail args)
      end
  end.

Definition Sprintf (f : string) (args : list string) : string :=
  format false f args.

Definition Errorf (f : string) (args : list string) : error :=
  Some (format true f args).

End fmt.

(** ** [regexp]: the fragment of RE2 syntax the program uses

    A pattern is a sequence of items: the anchors [^] and [$] (without the
    multi-line flag they match only at the beginning and at the end of the
    text), the class [\d] (the ASCII digits), ordinary bytes, and an item
    repeated a fixed number of times [x{n}].  [MatchString] compiles the
    pattern and searches the text for a match starting at any position, as
    Go's unanchored search does.  A pattern outside the fragment is
    reported as an error. *)
Module regexp.

Inductive item : Type :=
  | BeginText
  | EndText
  | Digit
  | Lit (c : ascii)
  | Repeat (n : nat) (r : item).

Definition is_digit (c : ascii) : bool :=
  Nat.leb 48 (nat_of_ascii c) && Nat.leb (nat_of_ascii c) 57.

Definition digit_value (c : ascii) : nat := nat_of_ascii c - 48.

Definition is_meta (c : ascii) : bool :=
  existsb (Ascii.eqb c) (list_ascii_of_string "\.+*?()|[]{}^$").

(** A repetition cannot be repeated again, and a count above 1000 is
    refused. *)
Definition repeatable (r : item) : bool :=
  match r with
  | Repeat _ _ => false
  | _ => true
  end.

Definition max_repeat : nat := 1000.

(** The state of the pattern reader: between items, after a backslash,
    or inside the braces of a repetition with the count read so far. *)
Inductive reader : Type :=
  | Plain
  | Escaped
  | Counting (n : option nat).

Fixpoint compile_from (st : reader) (acc : list item) (p : string)
  : option (list item) :=
  match p with
  | "" =>
      match st with
      | Plain => Some (rev acc)
      | _ => None
      end
  | String c p' =>
      match st with
      | Plain =>
          if Ascii.eqb c "^" then compile_from Plain (BeginText :: acc) p'
          else if Ascii.eqb c "$" then compile_from Plain (EndText :: acc) p'
          else if Ascii.eqb c "\" then compile_from Escaped acc p'
          else if Ascii.eqb c "{" then
            match acc with
            | r :: _ =>
                if repeatable r then compile_from (Counting None) acc p'
                else None
            | [] => None
            end
          else if is_meta c then None
          else compile_from Plain (Lit c :: acc) p'
      | Escaped =>
          if Ascii.eqb c "d" then compile_from Plain (Digit :: acc) p'
          else None
      | Counting n =>
          if Ascii.eqb c "}" then
            match n, acc with
            | Some k, r :: acc' =>
                if Nat.leb k max_repeat
                then compile_from Plain (Repeat k r :: acc') p'
                else None
            | _, _ => None
            end
          else if is_digit c then
            compile_from (Counting (Some (10 * default 0 n + digit_value c))) acc p'
          else None
      end
  end.

Definition Compile (p : string) : option (list item) :=
  compile_from Plain [] p.

(** A thread of the matcher: how many bytes of the text lie before it
    and the text still to read. *)
Definition thread : Type := nat * string.

Fixpoint step (r : item) (th : thread) : list thread :=
  match r with
  | BeginText => if Nat.eqb (fst th) 0 then [th] else []
  | EndText =>
      match snd th with
      | "" => [th]
      | String _ _ => []
      end
  | Digit =>
      match snd th with
      | String c t => if is_digit c then [(S (fst th), t)] else []
      | "" => []
      end
  | Lit a =>
      match snd th with
      | String c t => if Ascii.eqb c a then [(S (fst th), t)] else []
      | "" => []
      end
  | Repeat n r' => Nat.iter n (λ ths, ths ≫= step r') [th]
  end.

Definition run (rs : list item) (th : thread) : list thread :=
  fold_left (λ ths r, ths ≫= step r) rs [th].

Definition match_at (rs : list item) (th : thread) : bool :=
  match run rs th with
  | [] => false
  | _ :: _ => true
  end.

Fixpoint search (rs : list item) (pos : nat) (t : string) : bool :=
  match_at rs (pos, t) ||
  match t with
  | "" => false
  | String _ t' => search rs (S pos) t'
  end.

Definition MatchString (pattern s : string) : bool * error :=
  match Compile pattern with
  | Some rs => (search rs 0 s, None)
  | None => (false, Some ("error parsing regexp: " +:+ pattern))
  end.

End regexp.

(** ** [os/exec]: external commands *)
Module exec.

Record Cmd := {
  Name : string;
  Args : list string
}.

Definition Command (name : string) (args : list string) : Cmd :=
  {| Name := name; Args := args |}.

Global Instance Cmd_eq_dec : EqDecision Cmd.
Proof. solve_decision. Defined.

End exec.

(** ** [sh -c]: how the shell reads a command line

    The fragment of the shell grammar that the login command line lies in:
    words made of letters, digits and the bytes [-], [_], [.], [/] and
    [:], separated by blanks; [|] between the commands of a pipeline; [;]
    between the pipelines of a list.  A text with any other byte, with an
    empty command, or that is empty, is outside the fragment. *)
Module sh.

Inductive token : Type :=
  | Word (w : string)
  | Semi
  | Pipe.

Definition is_letter (c : ascii) : bool :=
  let n := nat_of_ascii c in
  (Nat.leb 65 n && Nat.leb n 90) || (Nat.leb 97 n && Nat.leb n 122).

Definition word_byte (c : ascii) : bool :=
  is_letter c || regexp.is_digit c
  || existsb (Ascii.eqb c) (list_ascii_of_string "-_./:").

Fixpoint all_word (s : string) : bool :=
  match s with
  | "" => true
  | String c s' => word_byte c && all_word s'
  end.

(** The reader's state: the tokens read and the word being read. *)
Definition state : Type := list token * string.

Definition close (st : state) : list token :=
  match snd st with
  | "" => fst st
  | String _ _ => (fst st ++ [Word (snd st)])%list
  end.

Definition step (st : state) (c : ascii) : option state :=
  if word_byte c then Some (fst st, snd st +:+ String c "")
  else if Ascii.eqb c " " then Some (close st, "")
  else if Ascii.eqb c ";" then Some ((close st ++ [Semi])%list, "")
  else if Ascii.eqb c "|" then Some ((close st ++ [Pipe])%list, "")
  else None.

Fixpoint scan (st : state) (s : string) : option state :=
  match s with
  | "" => Some st
  | String c s' =>
      match step st c with
      | Some st' => scan st' s'
      | None => None
      end
  end.

Definition lex (text : string) : option (list token) :=
  close <$> scan ([], "") text.

Definition command : Type := list string.
Definition pipeline : Type := list command.

(** Groups the tokens: [cmd] is the command and [pl] the pipeline being
    read.  A [;] at the very end closes the list. *)
Fixpoint group (ts : list token) (cmd : command) (pl : pipeline) : list pipeline :=
  match ts with
  | [] =>
      match cmd, pl with
      | [], [] => []
      | _, _ => [(pl ++ [cmd])%list]
      end
  | Word w :: ts' => group ts' (cmd ++ [w])%list pl
  | Pipe :: ts' => group ts' [] (pl ++ [cmd])%list
  | Semi :: ts' => (pl ++ [cmd])%list :: group ts' [] []
  end.

Definition is_empty {A} (l : list A) : bool :=
  match l with
  | [] => true
  | _ :: _ => false
  end.

Definition well_formed (prog : list pipeline) : bool :=
  negb (is_empty prog) && forallb (forallb (λ cmd, negb (is_empty cmd))) prog.

Definition parse (text : string) : option (list pipeline) :=
  match lex text with
  | Some ts =>
      let prog := group ts [] [] in
      if well_formed prog then Some prog else None
  | None => None
  end.

End sh.

(** ** [viper]: the configuration store

    viper is an external library.  Its store is modelled by what its
    interface documents: a setting is named by a dot-delimited key, a value
    read from the configuration file takes precedence over a default
    registered for the same key, and [Unmarshal] decodes all settings, from
    the file and from the defaults alike, into the target struct along its
    [mapstructure] tags.  Keys are kept the way viper holds them (split at
    the dots, in lower case), a leaf that is absent from the file or null
    has no entry, and scalar leaves are held as the strings they decode
    to. *)
Module viper.

Definition key : Type := list string.

Record t := {
  configFile : string;
  configType : string;
  defaults : gmap key string;
  config : gmap key string
}.

Definition New : t :=
  {| configFile := ""; configType := ""; defaults := ∅; config := ∅ |}.

Definition lower (c : ascii) : ascii :=
  let n := nat_of_ascii c in
  if Nat.leb 65 n && Nat.leb n 90 then ascii_of_nat (n + 32) else c.

Fixpoint ToLower (s : string) : string :=
  match s with
  | "" => ""
  | String c s' => String (lower c) (ToLower s')
  end.

Fixpoint Split (sep : ascii) (s : string) : list string :=
  match s with
  | "" => [""]
  | String c s' =>
      if Ascii.eqb c sep then "" :: Split sep s'
      else
        match Split sep s' with
        | h :: rest => String c h :: rest
        | [] => [String c ""]
        end
  end.

Definition key_path (k : string) : key := Split "." (ToLower k).

(** An empty path, or an empty type, leaves what the store holds. *)
Definition SetConfigFile (path : string) (v : t) : t :=
  if bool_decide (path ≠ "") then
    {| configFile := path; configType := configType v;
       defaults := defaults v; config := config v |}
  else v.

Definition SetConfigType (ty : string) (v : t) : t :=
  if bool_decide (ty ≠ "") then
    {| configFile := configFile v; configType := ty;
       defaults := defaults v; config := config v |}
  else v.

Definition SetDefault (k value : string) (v : t) : t :=
  {| configFile := configFile v; configType := configType v;
     defaults := <[key_path k := value]> (defaults v); config := config v |}.

Definition setConfig (d : gmap key string) (v : t) : t :=
  {| configFile := configFile v; configType := configType v;
     defaults := defaults v; config := d |}.

(** The file wins over the default: the union of maps is left-biased. *)
Definition AllSettings (v : t) : gmap key string := config v ∪ defaults v.

Definition Get (k : string) (v : t) : option string := AllSettings v !! key_path k.

(** *** Decoding onto [Config], along the struct tags *)

Definition profile_of_key (k : key) : option string :=
  match k with
  | p :: n :: _ :: _ => if bool_decide (p = "profiles") then Some n else None
  | _ => None
  end.

Definition known_field (section field : string) : bool :=
  bool_decide (section = "ecr" ∧
               field ∈ ["region"; "account_id"; "repository"; "image_tag"])
  || bool_decide (section = "docker" ∧ field = "image_name").

(** Where a leaf may sit: a scalar cannot stand where a struct or a map
    is expected, nor a mapping where a string field is.  Keys the
    structs do not name are ignored. *)
Definition decodable (k : key) : bool :=
  match k with
  | p :: below =>
      if bool_decide (p = "profiles") then
        match below with
        | [] | [_] => false
        | _ :: section :: fields =>
            if bool_decide (section = "ecr") || bool_decide (section = "docker") then
              match fields with
              | [] => false
              | [_] => true
              | field :: _ :: _ => negb (known_field section field)
              end
            else true
        end
      else true
  | [] => true
  end.

Definition field (m : gmap key string) (k : key) : string := default "" (m !! k).

Definition decode_profile (m : gmap key string) (n : string) : ProfileConfig :=
  {| ECR := {| Region := field m ["profiles"; n; "ecr"; "region"];
               AccountID := field m ["profiles"; n; "ecr"; "account_id"];
               Repository := field m ["profiles"; n; "ecr"; "repository"];
               ImageTag := field m ["profiles"; n; "ecr"; "image_tag"] |};
     Docker := {| ImageName := field m ["profiles"; n; "docker"; "image_name"] |} |}.

Definition profile_names (m : gmap key string) : gset string :=
  set_omap profile_of_key (dom m).

Definition decode (m : gmap key string) : Config :=
  {| Profiles := set_to_map (λ n, (n, decode_profile m n)) (profile_names m) |}.

Definition Unmarshal (v : t) : Config + string :=
  if forallb decodable (elements (dom (AllSettings v)))
  then inl (decode (AllSettings v))
  else inr "decoding failed: a setting does not fit the expected structure".

End viper.

(** ** The world the program runs in *)

(** What is found at a path: nothing that can be read as YAML, or a
    document, given by the value at each of its leaves. *)
Inductive file : Type :=
  | Unreadable (cause : string)
  | Document (d : gmap viper.key string).

Record Env := {
  files : string → file;
  (** the result of running a command, which may depend on the commands
      that ran before it *)
  outcome : list exec.Cmd → exec.Cmd → error
}.

(** [stdout] holds what the program itself writes with [fmt]; the
    commands inherit the terminal and what they print is not recorded. *)
Record World := {
  settings : viper.t;          (* the package-level viper instance *)
  stdout : list string;        (* what the program wrote, oldest first *)
  started : list exec.Cmd      (* the commands it ran, oldest first *)
}.

Definition initial : World :=
  {| settings := viper.New; stdout := []; started := [] |}.

(** A computation returns a value or ends the process ([os.Exit]). *)
Inductive ret (A : Type) : Type :=
  | Val (a : A)
  | Exited (code : Z).
Arguments Val {A} a.
Arguments Exited {A} code.

Definition Proc (A : Type) : Type := Env → World → ret A * World.

Global Instance Proc_ret : MRet Proc := λ A a, λ _ w, (Val a, w).

Global Instance Proc_bind : MBind Proc := λ A B f m, λ env w,
  match m env w with
  | (Val a, w') => f a env w'
  | (Exited code, w') => (Exited code, w')
  end.

Definition Exit {A : Type} (code : Z) : Proc A := λ _ w, (Exited code, w).

Definition printed (s : string) (w : World) : World :=
  {| settings := settings w; stdout := stdout w ++ [s]; started := started w |}.

Definition ran (cmd : exec.Cmd) (w : World) : World :=
  {| settings := settings w; stdout := stdout w; started := started w ++ [cmd] |}.

Definition write (s : string) : Proc unit := λ _ w, (Val (), printed s w).

Definition line (s : string) : string := s +:+ String LF "".

Definition Println (s : string) : Proc unit := write (line s).

Definition Printf (f : string) (args : list string) : Proc unit :=
  write (fmt.Sprintf f args).

Definition Run (cmd : exec.Cmd) : Proc error := λ env w,
  (Val (outcome env (started w) cmd), ran cmd w).

Definition withViper (f : viper.t → viper.t) : Proc unit := λ _ w,
  (Val (), {| settings := f (settings w); stdout := stdout w; started := started w |}).

Definition ReadInConfig : Proc error := λ env w,
  match files env (viper.configFile (settings w)) with
  | Unreadable cause => (Val (Some cause), w)
  | Document d =>
      (Val None, {| settings := viper.setConfig d (settings w);
                    stdout := stdout w; started := started w |})
  end.

Definition Unmarshal : Proc (Config + string) := λ _ w,
  (Val (viper.Unmarshal (settings w)), w).

(** ** [loadConfig] *)

Definition loadConfig (configPath : string) : Proc (Config + string) :=
  withViper (viper.SetConfigFile configPath);;
  withViper (viper.SetConfigType "yaml");;
  withViper (viper.SetDefault "profiles.dev.ecr.region" "us-east-1");;
  withViper (viper.SetDefault "profiles.dev.ecr.image_tag" "latest");;
  err ← ReadInConfig;
  if err is Some cause then
    mret (inr (fmt.format true "error leyendo el archivo de configuración: %w" [cause]))
  else
    r ← Unmarshal;
    match r with
    | inr cause =>
        mret (inr (fmt.format true "error parseando la configuración: %w" [cause]))
    | inl config => mret (inl config)
    end.

(** ** [validateConfig] *)

Definition validateConfig (config : ProfileConfig) : error :=
  if bool_decide (Region (ECR config) = "") then
    fmt.Errorf "ecr.region is required" []
  else if bool_decide (AccountID (ECR config) = "") then
    fmt.Errorf "ecr.account_id is required" []
  else
    let '(matched, err) := regexp.MatchString "^\d{12}$" (AccountID (ECR config)) in
    if bool_decide (err ≠ None) || negb matched then
      fmt.Errorf "ecr.account_id debe ser una cadena de 12 dígitos" []
    else if bool_decide (Repository (ECR config) = "") then
      fmt.Errorf "ecr.repository is required" []
    else if bool_decide (ImageName (Docker config) = "") then
      fmt.Errorf "docker.image_name is required" []
    else None.

(** ** The four steps *)

(** The struct [ECR] of the source, which holds the selected profile; its
    name is taken by the field [ECR] of [ProfileConfig]. *)
Record ECR' := {
  Config' : ProfileConfig
}.

Definition authenticate (ecr : ECR') : Proc error :=
  Println (ColorCyan +:+ "Authenticating Docker with ECR" +:+ ColorReset);;
  let ecrRepo := fmt.Sprintf "%s.dkr.ecr.%s.amazonaws.com"
                   [AccountID (ECR (Config' ecr)); Region (ECR (Config' ecr))] in
  let cmd := exec.Command "sh" ["-c";
               fmt.Sprintf "aws ecr get-login-password --region %s | docker login --username AWS --password-stdin %s"
                 [Region (ECR (Config' ecr)); ecrRepo]] in
  err ← Run cmd;
  if err is Some cause then
    mret (fmt.Errorf "error durante la autenticación con ECR: %w" [cause])
  else mret None.

Definition build (ecr : ECR') : Proc error :=
  Println (ColorCyan +:+ "Building container" +:+ ColorReset);;
  let build := exec.Command "docker" ["build"; "-t"; ImageName (Docker (Config' ecr)); "."] in
  err ← Run build;
  if err is Some cause then
    mret (fmt.Errorf "error al construir la imagen Docker: %w" [cause])
  else mret None.

Definition tag (ecr : ECR') : Proc error :=
  Println (ColorYellow +:+ "Tagging container" +:+ ColorReset);;
  let localImage := fmt.Sprintf "%s:%s"
                      [ImageName (Docker (Config' ecr)); ImageTag (ECR (Config' ecr))] in
  let ecrImage := fmt.Sprintf "%s.dkr.ecr.%s.amazonaws.com/%s:%s"
                    [AccountID (ECR (Config' ecr)); Region (ECR (Config' ecr));
                     Repository (ECR (Config' ecr)); ImageTag (ECR (Config' ecr))] in
  let tag := exec.Command "docker" ["tag"; localImage; ecrImage] in
  err ← Run tag;
  if err is Some cause then
    mret (fmt.Errorf "error al etiquetar la imagen Docker: %w" [cause])
  else mret None.

Definition push (ecr : ECR') : Proc error :=
  Println (ColorCyan +:+ "Pushing container" +:+ ColorReset);;
  let ecrImage := fmt.Sprintf "%s.dkr.ecr.%s.amazonaws.com/%s:%s"
                    [AccountID (ECR (Config' ecr)); Region (ECR (Config' ecr));
                     Repository (ECR (Config' ecr)); ImageTag (ECR (Config' ecr))] in
  let push := exec.Command "docker" ["push"; ecrImage] in
  err ← Run push;
  if err is Some cause then
    mret (fmt.Errorf "error al empujar la imagen Docker: %w" [cause])
  else mret None.

(** ** [main] *)

(** The rendering of a [ProfileConfig] under the verb [%+v]. *)
Definition plus_v (p : ProfileConfig) : string :=
  "{ECR:{Region:" +:+ Region (ECR p) +:+ " AccountID:" +:+ AccountID (ECR p) +:+
  " Repository:" +:+ Repository (ECR p) +:+ " ImageTag:" +:+ ImageTag (ECR p) +:+
  "} Docker:{ImageName:" +:+ ImageName (Docker p) +:+ "}}".

(** The two flags, after [flag.Parse]. *)
Record Flags := {
  configPath : string;
  profile : string
}.

Definition default_flags : Flags :=
  {| configPath := "deploy.yml"; profile := "dev" |}.

Definition main (flags : Flags) : Proc unit :=
  r ← loadConfig (configPath flags);
  match r with
  | inr err =>
      Println (ColorRed +:+ "Error loading configuration: " +:+ err +:+ ColorReset);;
      Exit 1
  | inl config =>
      match Profiles config !! profile flags with
      | None =>
          Printf (ColorRed +:+ "Profile '%s' not found in configuration" +:+ ColorReset +:+ String LF "")
            [profile flags];;
          Exit 1
      | Some profileConfig =>
          Printf (ColorYellow +:+ "Loaded Configuration for profile '%s': %+v" +:+ ColorReset +:+ String LF "")
            [profile flags; plus_v profileConfig];;
          (if validateConfig profileConfig is Some err then
             Println (ColorRed +:+ "Invalid configuration: " +:+ err +:+ ColorReset);;
             Exit 1
           else mret ());;
          let ecr := {| Config' := profileConfig |} in
          err ← authenticate ecr;
          (if err is Some err then
             Println (ColorRed +:+ "Authentication failed: " +:+ err +:+ ColorReset);;
             Exit 1
           else mret ());;
          err ← build ecr;
          (if err is Some err then
             Println (ColorRed +:+ "Build failed: " +:+ err +:+ ColorReset);;
             Exit 1
           else mret ());;
          err ← tag ecr;
          (if err is Some err then
             Println (ColorRed +:+ "Tag failed: " +:+ err +:+ ColorReset);;
             Exit 1
           else mret ());;
          err ← push ecr;
          (if err is Some err then
             Println (ColorRed +:+ "Push failed: " +:+ err +:+ ColorReset);;
             Exit 1
           else mret ());;
          Println (ColorGreen +:+ "Container built and pushed to ECR" +:+ ColorReset)
      end
  end.

(** The exit status of a run and the world it leaves: falling off the end
    of [main] is status 0. *)
Definition exit_status (r : ret unit) : Z :=
  match r with
  | Val _ => 0
  | Exited code => code
  end.

Definition run_main (env : Env) (flags : Flags) : Z * World :=
  let '(r, w) := main flags env initial in (exit_status r, w).

(** ** [flag]: the command line

    [main] from its first line.  The two flags are string flags, so each
    takes a value, in the same argument after [=] or in the next one;
    parsing stops at the first argument that is not a flag or after [--];
    [-h] and [-help], which the program does not define, ask for the
    usage.  The package is set to exit on error: status 0 when the usage
    was asked for, status 2 for any other failure, after writing the
    failure and the usage to standard error. *)
Module flag.

Inductive syntax : Type :=
  | NonFlag
  | Terminator
  | BadSyntax
  | Flag (name : string) (value : option string).

(** Cuts a name at its first [=]; the first byte of a name is never
    looked at. *)
Fixpoint cut (s : string) : string * option string :=
  match s with
  | "" => ("", None)
  | String c s' =>
      if Ascii.eqb c "=" then ("", Some s')
      else let '(name, value) := cut s' in (String c name, value)
  end.

Definition classify (s : string) : syntax :=
  match s with
  | String c0 (String c1 tail) =>
      if negb (Ascii.eqb c0 "-") then NonFlag
      else if Ascii.eqb c1 "-" && bool_decide (tail = "") then Terminator
      else
        match (if Ascii.eqb c1 "-" then tail else String c1 tail) with
        | "" => BadSyntax
        | String n0 rest =>
            if Ascii.eqb n0 "-" || Ascii.eqb n0 "=" then BadSyntax
            else let '(name, value) := cut rest in Flag (String n0 name) value
        end
  | _ => NonFlag
  end.

(** The flags the program defines, each with what setting it does. *)
Definition formal (name : string) : option (string → Flags → Flags) :=
  if bool_decide (name = "config") then
    Some (λ v f, {| configPath := v; profile := profile f |})
  else if bool_decide (name = "profile") then
    Some (λ v f, {| configPath := configPath f; profile := v |})
  else None.

Inductive result : Type :=
  | Parsed (f : Flags) (rest : list string)
  | ErrHelp
  | Failed (msg : string).

Fixpoint parse (f : Flags) (args : list string) : result :=
  match args with
  | [] => Parsed f []
  | s :: rest =>
      match classify s with
      | NonFlag => Parsed f (s :: rest)
      | Terminator => Parsed f rest
      | BadSyntax => Failed (fmt.Sprintf "bad flag syntax: %s" [s])
      | Flag name value =>
          match formal name with
          | None =>
              if bool_decide (name = "help") || bool_decide (name = "h") then ErrHelp
              else Failed (fmt.Sprintf "flag provided but not defined: -%s" [name])
          | Some set =>
              match value with
              | Some v => parse (set v f) rest
              | None =>
                  match rest with
                  | v :: rest' => parse (set v f) rest'
                  | [] => Failed (fmt.Sprintf "flag needs an argument: -%s" [name])
                  end
              end
          end
      end
  end.

Definition TAB : ascii := ascii_of_nat 9.
Definition QUOTE : ascii := ascii_of_nat 34.

(** One flag of [PrintDefaults]: a string flag with a default. *)
Definition default_of (name usage value : string) : string :=
  "  -" +:+ name +:+ " string" +:+ String LF ("    " +:+ String TAB usage) +:+
  " (default " +:+ String QUOTE value +:+ String QUOTE ")" +:+ String LF "".

Definition PrintDefaults : list string :=
  [ default_of "config" "Path to the configuration YAML file" "deploy.yml";
    default_of "profile" "Configuration profile to use (e.g., dev, prod)" "dev" ].

(** The function the program installs as [flag.Usage]; [argv0] is
    [os.Args[0]]. *)
Definition Usage (argv0 : string) : list string :=
  fmt.Sprintf ("Uso: %s -config deploy.yml -profile dev [opciones]" +:+ String LF "") [argv0]
  :: PrintDefaults.

(** [flag.Parse]: the flags, or the exit status and what was written to
    standard error. *)
Definition Parse (argv0 : string) (args : list string) : Flags + Z * list string :=
  match parse default_flags args with
  | Parsed f _ => inl f
  | ErrHelp => inr (0%Z, Usage argv0)
  | Failed msg => inr (2%Z, line msg :: Usage argv0)
  end.

End flag.

(** The program on its arguments: the result of [main] and what went to
    standard error. *)
Definition command (argv0 : string) (args : list string)
  : Env → World → ret unit * World * list string := λ env w,
  match flag.Parse argv0 args with
  | inl flags => (main flags env w, [])
  | inr (code, err) => (Exited code, w, err)
  end.

Definition run_command (env : Env) (argv0 : string) (args : list string)
  : Z * World * list string :=
  let '(r, w, err) := command argv0 args env initial in (exit_status r, w, err).

(** ** The specification's vocabulary *)

(** Exactly twelve decimal digits. *)
Fixpoint all_digits (s : string) : bool :=
  match s with
  | "" => true
  | String c s' => regexp.is_digit c && all_digits s'
  end.

Definition twelve_digits (s : string) : bool :=
  Nat.eqb (String.length s) 12 && all_digits s.

(** Reads [n] digits from the front of a text: what is left, if the text
    starts with that many digits. *)
Fixpoint take_digits (n : nat) (t : string) : option string :=
  match n with
  | 0 => Some t
  | S n' =>
      match t with
      | String c t' => if regexp.is_digit c then take_digits n' t' else None
      | "" => None
      end
  end.

(** The validator's checks in the order the specification lists them,
    each with the message reported when it fails. *)
Definition spec_checks (p : ProfileConfig) : list (bool * string) :=
  [ (negb (bool_decide (Region (ECR p) = "")), "ecr.region is required");
    (negb (bool_decide (AccountID (ECR p) = "")), "ecr.account_id is required");
    (twelve_digits (AccountID (ECR p)), "ecr.account_id debe ser una cadena de 12 dígitos");
    (negb (bool_decide (Repository (ECR p) = "")), "ecr.repository is required");
    (negb (bool_decide (ImageName (Docker p) = "")), "docker.image_name is required") ].

Definition first_failure (checks : list (bool * string)) : error :=
  snd <$> find (λ ch, negb (fst ch)) checks.

Definition with_image_tag (t : string) (p : ProfileConfig) : ProfileConfig :=
  {| ECR := {| Region := Region (ECR p); AccountID := AccountID (ECR p);
               Repository := Repository (ECR p); ImageTag := t |};
     Docker := Docker p |}.

(** The strings and commands of section 4.3. *)
Definition registry_host (p : ProfileConfig) : string :=
  AccountID (ECR p) +:+ ".dkr.ecr." +:+ Region (ECR p) +:+ ".amazonaws.com".

Definition local_reference (p : ProfileConfig) : string :=
  ImageName (Docker p) +:+ ":" +:+ ImageTag (ECR p).

Definition remote_reference (p : ProfileConfig) : string :=
  AccountID (ECR p) +:+ ".dkr.ecr." +:+ Region (ECR p) +:+ ".amazonaws.com/" +:+
  Repository (ECR p) +:+ ":" +:+ ImageTag (ECR p).

Definition login_command (p : ProfileConfig) : exec.Cmd :=
  exec.Command "sh"
    ["-c"; "aws ecr get-login-password --region " +:+ Region (ECR p) +:+
           " | docker login --username AWS --password-stdin " +:+ registry_host p].

Definition build_command (p : ProfileConfig) : exec.Cmd :=
  exec.Command "docker" ["build"; "-t"; ImageName (Docker p); "."].

Definition tag_command (p : ProfileConfig) : exec.Cmd :=
  exec.Command "docker" ["tag"; local_reference p; remote_reference p].

Definition push_command (p : ProfileConfig) : exec.Cmd :=
  exec.Command "docker" ["push"; remote_reference p].

(** Running a list of commands in order, stopping after the first one that
    fails: the commands that get started. *)
Fixpoint run_until_failure (env : Env) (done todo : list exec.Cmd) : list exec.Cmd :=
  match todo with
  | [] => done
  | c :: rest =>
      if outcome env done c is Some _ then done ++ [c]
      else run_until_failure env (done ++ [c]) rest
  end.

(** The exit status of such a run: 1 as soon as a command fails. *)
Fixpoint run_status (env : Env) (done todo : list exec.Cmd) : Z :=
  match todo with
  | [] => 0
  | c :: rest =>
      if outcome env done c is Some _ then 1
      else run_status env (done ++ [c]) rest
  end.

Definition four_steps (p : ProfileConfig) : list exec.Cmd :=
  [login_command p; build_command p; tag_command p; push_command p].

(** The store once the loader has registered its defaults, and the world
    the loader leaves. *)
Definition registered (path : string) : viper.t :=
  viper.SetDefault "profiles.dev.ecr.image_tag" "latest"
    (viper.SetDefault "profiles.dev.ecr.region" "us-east-1"
       (viper.SetConfigType "yaml" (viper.SetConfigFile path viper.New))).

Definition loaded_world (v : viper.t) : World :=
  {| settings := v; stdout := []; started := [] |}.

(** The profile of the end-to-end scenario of section 8. *)
Definition scenario : ProfileConfig :=
  {| ECR := {| Region := "us-east-1"; AccountID := "123456789012";
               Repository := "myrepo"; ImageTag := "latest" |};
     Docker := {| ImageName := "myapp" |} |}.

(** The two defaults, as the store holds them. *)
Definition region_key : viper.key := ["profiles"; "dev"; "ecr"; "region"].
Definition image_tag_key : viper.key := ["profiles"; "dev"; "ecr"; "image_tag"].

Definition program_defaults : gmap viper.key string :=
  <[image_tag_key := "latest"]> (<[region_key := "us-east-1"]> ∅).

(** A configuration file and an environment to run the program in: the
    [dev] profile leaves its region and its tag to the defaults, the
    [staging] profile has an account identifier of five digits, and the
    docker subcommand named [failing] fails. *)
Definition example_document : gmap viper.key string :=
  list_to_map
    [ (["profiles"; "dev"; "ecr"; "account_id"], "123456789012");
      (["profiles"; "dev"; "ecr"; "repository"], "myrepo");
      (["profiles"; "dev"; "docker"; "image_name"], "myapp");
      (["profiles"; "staging"; "ecr"; "region"], "eu-west-1");
      (["profiles"; "staging"; "ecr"; "account_id"], "12345");
      (["profiles"; "staging"; "ecr"; "repository"], "myrepo");
      (["profiles"; "staging"; "ecr"; "image_tag"], "v2");
      (["profiles"; "staging"; "docker"; "image_name"], "myapp") ].

Definition example_env (failing : string) : Env :=
  {| files := λ path,
       if bool_decide (path = "deploy.yml") then Document example_document
       else Unreadable ("open " +:+ path +:+ ": no such file or directory");
     outcome := λ _ cmd,
       if bool_decide (exec.Args cmd !! 0 = Some failing) then Some "exit status 1"
       else None |}.

Definition example_config : Config :=
  viper.decode (viper.AllSettings (viper.setConfig example_document (registered "deploy.yml"))).

Definition staging : ProfileConfig :=
  {| ECR := {| Region := "eu-west-1"; AccountID := "12345";
               Repository := "myrepo"; ImageTag := "v2" |};
     Docker := {| ImageName := "myapp" |} |}.

(** What a step returns for the result of its command. *)
Definition wrapped (f : string) (err : error) : error :=
  if err is Some cause then fmt.Errorf f [cause] else None.

(** ** What a run writes *)

Definition with_region (r : string) (p : ProfileConfig) : ProfileConfig :=
  {| ECR := {| Region := r; AccountID := AccountID (ECR p);
               Repository := Repository (ECR p); ImageTag := ImageTag (ECR p) |};
     Docker := Docker p |}.

Definition with_ecr (e : ECRConfig) (p : ProfileConfig) : ProfileConfig :=
  {| ECR := e; Docker := Docker p |}.

(** The line written once a profile has been selected. *)
Definition loaded_line (name : string) (p : ProfileConfig) : string :=
  ColorYellow +:+ "Loaded Configuration for profile '" +:+ name +:+ "': " +:+
  plus_v p +:+ ColorReset +:+ String LF "".

Definition success_line : string :=
  line (ColorGreen +:+ "Container built and pushed to ECR" +:+ ColorReset).

Definition load_failure_line (err : string) : string :=
  line (ColorRed +:+ "Error loading configuration: " +:+ err +:+ ColorReset).

(** A step as a row of a table: its command, the banner it writes before
    running it, the words [main] puts in front of its error, and the words
    the step itself puts in front of the cause. *)
Record step_row := {
  row_command : exec.Cmd;
  row_banner : string;
  row_label : string;
  row_context : string
}.

Definition step_table (p : ProfileConfig) : list step_row :=
  [ {| row_command := login_command p;
       row_banner := ColorCyan +:+ "Authenticating Docker with ECR" +:+ ColorReset;
       row_label := "Authentication failed: ";
       row_context := "error durante la autenticación con ECR: " |};
    {| row_command := build_command p;
       row_banner := ColorCyan +:+ "Building container" +:+ ColorReset;
       row_label := "Build failed: ";
       row_context := "error al construir la imagen Docker: " |};
    {| row_command := tag_command p;
       row_banner := ColorYellow +:+ "Tagging container" +:+ ColorReset;
       row_label := "Tag failed: ";
       row_context := "error al etiquetar la imagen Docker: " |};
    {| row_command := push_command p;
       row_banner := ColorCyan +:+ "Pushing container" +:+ ColorReset;
       row_label := "Push failed: ";
       row_context := "error al empujar la imagen Docker: " |} ].

Definition failure_line (row : step_row) (cause : string) : string :=
  line (ColorRed +:+ row_label row +:+ (row_context row +:+ cause) +:+ ColorReset).

(** The lines written while the rows are run in order: the banner of each
    row reached, then the failure of the first row whose command fails, or
    the success line when none does. *)
Fixpoint transcript (env : Env) (done : list exec.Cmd) (rows : list step_row)
  : list string :=
  match rows with
  | [] => [success_line]
  | row :: rest =>
      line (row_banner row) ::
      match outcome env done (row_command row) with
      | Some cause => [failure_line row cause]
      | None => transcript env (done ++ [row_command row]) rest
      end
  end.

(** Every command of the list succeeds when run after the ones before it. *)
Fixpoint all_succeed (env : Env) (done todo : list exec.Cmd) : Prop :=
  match todo with
  | [] => True
  | c :: rest => outcome env done c = None ∧ all_succeed env (done ++ [c]) rest
  end.

(** A document that does not fit the structs: a scalar where the profile
    [dev] should be a mapping. *)
Definition misshapen_document : gmap viper.key string :=
  {[ ["profiles"; "dev"] := "oops" ]}.

(** A step that writes one line, runs one command and hands a result back
    to its caller, whether the command failed or not. *)
Definition runs_one_command (step : Proc error) (cmd : exec.Cmd) : Prop :=
  ∀ env w, ∃ banner r, step env w = (Val r, ran cmd (printed banner w)).

(** An environment in which every path holds [f] and every command
    succeeds. *)
Definition env_with (f : file) : Env :=
  {| files := λ _, f; outcome := λ _ _, None |}.

(** The field of a profile that a leaf of the document decodes to, by the
    [mapstructure] tags of the structs. *)
Definition leaf_value (p : ProfileConfig) (section field : string) : option string :=
  if bool_decide (section = "ecr") then
    if bool_decide (field = "region") then Some (Region (ECR p))
    else if bool_decide (field = "account_id") then Some (AccountID (ECR p))
    else if bool_decide (field = "repository") then Some (Repository (ECR p))
    else if bool_decide (field = "image_tag") then Some (ImageTag (ECR p))
    else None
  else if bool_decide (section = "docker") then
    if bool_decide (field = "image_name") then Some (ImageName (Docker p)) else None
  else None.

(** ** The login pipeline *)

(** The pipeline of section 4.3: the command that obtains the login
    password for the profile's region, piped into the registry login for
    the profile's host under the user name [AWS]. *)
Definition login_pipeline (p : ProfileConfig) : sh.pipeline :=
  [ ["aws"; "ecr"; "get-login-password"; "--region"; Region (ECR p)];
    ["docker"; "login"; "--username"; "AWS"; "--password-stdin"; registry_host p] ].

(** The fixed words of its two commands. *)
Definition password_words : list string :=
  ["aws"; "ecr"; "get-login-password"; "--region"].

Definition login_words : list string :=
  ["docker"; "login"; "--username"; "AWS"; "--password-stdin"].

(** A command that hands the shell a text it reads as that one pipeline. *)
Definition runs_login_pipeline (p : ProfileConfig) (cmd : exec.Cmd) : Prop :=
  exec.Name cmd = "sh"
  ∧ ∃ text, exec.Args cmd = ["-c"; text] ∧ sh.parse text = Some [login_pipeline p].

(** A profile that validation accepts and whose region is more than a
    word. *)
Definition two_command_region : ProfileConfig := with_region "eu-west-1; id" scenario.

(** * Properties *)

(** ** Formatting *)

Lemma append_empty_r (s : string) : s +:+ "" = s.
Proof. induction s as [|c s IH]; [reflexivity | exact (f_equal (String c) IH)]. Qed.

(** ** The account identifier pattern *)

Section account_pattern.

Import regexp.

Lemma iter_bind_nil {A} (f : A → list A) (n : nat) :
  Nat.iter n (λ xs, xs ≫= f) [] = [].
Proof. induction n as [|n IH]; simpl; [reflexivity | by rewrite IH]. Qed.

Lemma step_repeat_digit (n : nat) (th : thread) :
  step (Repeat n Digit) th =
    match take_digits n (snd th) with
    | Some t' => [(n + fst th, t')]
    | None => []
    end.
Proof.
  change (step (Repeat n Digit) th)
    with (Nat.iter n (λ ths, ths ≫= step Digit) [th]).
  revert th. induction n as [|n IH]; intros [pos t].
  - reflexivity.
  - rewrite Nat.iter_succ_r. simpl.
    destruct t as [|c t]; simpl.
    + apply iter_bind_nil.
    + destruct (is_digit c); simpl.
      * rewrite IH. simpl. destruct (take_digits n t); [|reflexivity].
        by rewrite Nat.add_succ_r.
      * apply iter_bind_nil.
Qed.

Lemma take_digits_all (n : nat) (s : string) :
  take_digits n s = Some "" ↔ String.length s = n ∧ all_digits s = true.
Proof.
  revert s. induction n as [|n IH]; intros [|c s]; simpl.
  - naive_solver.
  - split; [discriminate | intros [? _]; discriminate].
  - split; [discriminate | intros [? _]; discriminate].
  - destruct (is_digit c); simpl.
    + rewrite IH. split; intros [? ?]; split; congruence || lia.
    + split; [discriminate | intros [_ ?]; discriminate].
Qed.

Definition account_items : list item := [BeginText; Repeat 12 Digit; EndText].

Lemma compile_account_pattern : Compile "^\d{12}$" = Some account_items.
Proof. reflexivity. Qed.

Lemma match_at_account (pos : nat) (t : string) :
  match_at account_items (pos, t) =
    Nat.eqb pos 0 && bool_decide (take_digits 12 t = Some "").
Proof.
  unfold match_at, run, account_items. cbn [fold_left mbind list_bind].
  change (step BeginText (pos, t))
    with (if Nat.eqb pos 0 then [(pos, t)] else []).
  destruct (Nat.eqb pos 0); cbn [app mbind list_bind]; [|reflexivity].
  rewrite step_repeat_digit. cbn [fst snd].
  destruct (take_digits 12 t) as [[|c r]|]; reflexivity.
Qed.

Lemma search_account_later (pos : nat) (t : string) :
  search account_items (S pos) t = false.
Proof.
  revert pos. induction t as [|c t IH]; intros pos; cbn [search];
    rewrite match_at_account; [reflexivity | apply IH].
Qed.

Lemma MatchString_account (s : string) :
  MatchString "^\d{12}$" s = (twelve_digits s, None).
Proof.
  unfold MatchString. rewrite compile_account_pattern. f_equal.
  assert (search account_items 0 s = bool_decide (take_digits 12 s = Some "")) as ->.
  { destruct s as [|c s]; cbn [search]; rewrite match_at_account;
      [|rewrite search_account_later]; by rewrite ?orb_false_r. }
  apply eq_true_iff_eq. rewrite bool_decide_eq_true, take_digits_all.
  unfold twelve_digits. rewrite andb_true_iff, Nat.eqb_eq. reflexivity.
Qed.

End account_pattern.

(** ** The validator *)

Lemma validateConfig_spec (p : ProfileConfig) :
  validateConfig p = first_failure (spec_checks p).
Proof.
  unfold validateConfig, first_failure, spec_checks.
  rewrite MatchString_account. cbn [find fst snd negb].
  repeat (case_bool_decide; cbn [negb orb fmap option_fmap option_map]; try reflexivity).
  all: try congruence.
  all: destruct (twelve_digits _); cbn [negb orb fmap option_fmap option_map]; try reflexivity.
  all: repeat (case_bool_decide; cbn [negb fmap option_fmap option_map]; try reflexivity).
Qed.

(** C1.  [validateConfig] accepts a profile exactly when its region,
    account identifier, repository and image name are non-empty and the
    account identifier matches the pattern; and a string matches the
    pattern exactly when it consists, as a whole, of twelve decimal
    digits. *)
Theorem validateConfig_succeeds_iff (p : ProfileConfig) :
  (validateConfig p = None ↔
     Region (ECR p) ≠ "" ∧ AccountID (ECR p) ≠ "" ∧
     Repository (ECR p) ≠ "" ∧ ImageName (Docker p) ≠ "" ∧
     regexp.MatchString "^\d{12}$" (AccountID (ECR p)) = (true, None))
  ∧ (∀ s, regexp.MatchString "^\d{12}$" s = (true, None) ↔
          String.length s = 12 ∧ all_digits s = true).
Proof.
  split.
  - rewrite validateConfig_spec, MatchString_account.
    unfold first_failure, spec_checks.
    destruct (twelve_digits (AccountID (ECR p))); repeat case_bool_decide;
      cbn [find fst snd negb fmap option_fmap option_map];
      (split;
       [ try discriminate; intros _; repeat split; done
       | try reflexivity; intros (? & ? & ? & ? & ?); congruence ]).
  - intros s. rewrite MatchString_account. unfold twelve_digits.
    split.
    + intros H. injection H as H. apply andb_true_iff in H as [H1 H2].
      by apply Nat.eqb_eq in H1.
    + intros [H1 H2]. by rewrite H1, H2.
Qed.

(** C2.  The checks are made in the order region, account identifier
    present, account identifier of twelve digits, repository, image name,
    and the one error returned is that of the first check that fails: the
    result is the message of the earliest failing check in that list,
    whatever the later checks would say. *)
Theorem validateConfig_first_failure (p : ProfileConfig) :
  validateConfig p = first_failure (spec_checks p)
  ∧ ∀ i msg,
      spec_checks p !! i = Some (false, msg) →
      (∀ j, j < i → fst <$> spec_checks p !! j = Some true) →
      validateConfig p = Some msg.
Proof.
  split; [apply validateConfig_spec|].
  rewrite validateConfig_spec. unfold first_failure.
  generalize (spec_checks p) as checks.
  induction checks as [|[ok m] checks IH]; intros i msg Hi Hbefore.
  - discriminate.
  - destruct i as [|i]; cbn [find fst negb].
    + injection Hi as -> ->. reflexivity.
    + specialize (Hbefore 0 ltac:(lia)) as H0. injection H0 as ->.
      cbn [negb]. apply (IH i msg Hi).
      intros j Hj. apply (Hbefore (S j)). lia.
Qed.

Lemma validateConfig_first_failure_witness :
  validateConfig
    {| ECR := {| Region := "eu-west-1"; AccountID := "12345";
                 Repository := ""; ImageTag := "v1" |};
       Docker := {| ImageName := "" |} |}
  = Some "ecr.account_id debe ser una cadena de 12 dígitos".
Proof.
  apply (proj2 (validateConfig_first_failure _) 2); [reflexivity|].
  intros [|[|j]] Hj; [reflexivity | reflexivity | lia].
Defined.

(** ** The four steps *)

Section steps.

Context (env : Env) (w : World) (ecr : ECR').

Lemma Sprintf_local_reference (p : ProfileConfig) :
  fmt.Sprintf "%s:%s" [ImageName (Docker p); ImageTag (ECR p)] = local_reference p.
Proof. unfold fmt.Sprintf. cbn. by rewrite append_empty_r. Qed.

Lemma Sprintf_remote_reference (p : ProfileConfig) :
  fmt.Sprintf "%s.dkr.ecr.%s.amazonaws.com/%s:%s"
    [AccountID (ECR p); Region (ECR p); Repository (ECR p); ImageTag (ECR p)]
  = remote_reference p.
Proof. unfold fmt.Sprintf. cbn. by rewrite append_empty_r. Qed.

Lemma Sprintf_registry_host (p : ProfileConfig) :
  fmt.Sprintf "%s.dkr.ecr.%s.amazonaws.com" [AccountID (ECR p); Region (ECR p)]
  = registry_host p.
Proof. unfold fmt.Sprintf. cbn. reflexivity. Qed.

Lemma Sprintf_login_pipeline (p : ProfileConfig) (host : string) :
  fmt.Sprintf
    "aws ecr get-login-password --region %s | docker login --username AWS --password-stdin %s"
    [Region (ECR p); host]
  = "aws ecr get-login-password --region " +:+ Region (ECR p) +:+
    " | docker login --username AWS --password-stdin " +:+ host.
Proof. unfold fmt.Sprintf. cbn. by rewrite append_empty_r. Qed.

Ltac run_step :=
  cbv [mbind Proc_bind mret Proc_ret Println write Run wrapped];
  cbn [started printed];
  match goal with
  | |- context [outcome ?e ?h ?c] => destruct (outcome e h c)
  end; reflexivity.

Lemma authenticate_run :
  authenticate ecr env w =
    (Val (wrapped "error durante la autenticación con ECR: %w"
            (outcome env (started w) (login_command (Config' ecr)))),
     ran (login_command (Config' ecr))
       (printed (line (ColorCyan +:+ "Authenticating Docker with ECR" +:+ ColorReset)) w)).
Proof.
  unfold authenticate. cbv zeta.
  rewrite Sprintf_registry_host, Sprintf_login_pipeline.
  change (exec.Command "sh" _) with (login_command (Config' ecr)).
  run_step.
Qed.

Lemma build_run :
  build ecr env w =
    (Val (wrapped "error al construir la imagen Docker: %w"
            (outcome env (started w) (build_command (Config' ecr)))),
     ran (build_command (Config' ecr))
       (printed (line (ColorCyan +:+ "Building container" +:+ ColorReset)) w)).
Proof.
  unfold build. cbv zeta.
  change (exec.Command "docker" _) with (build_command (Config' ecr)).
  run_step.
Qed.

Lemma tag_run :
  tag ecr env w =
    (Val (wrapped "error al etiquetar la imagen Docker: %w"
            (outcome env (started w) (tag_command (Config' ecr)))),
     ran (tag_command (Config' ecr))
       (printed (line (ColorYellow +:+ "Tagging container" +:+ ColorReset)) w)).
Proof.
  unfold tag. cbv zeta.
  rewrite Sprintf_local_reference, Sprintf_remote_reference.
  change (exec.Command "docker" _) with (tag_command (Config' ecr)).
  run_step.
Qed.

Lemma push_run :
  push ecr env w =
    (Val (wrapped "error al empujar la imagen Docker: %w"
            (outcome env (started w) (push_command (Config' ecr)))),
     ran (push_command (Config' ecr))
       (printed (line (ColorCyan +:+ "Pushing container" +:+ ColorReset)) w)).
Proof.
  unfold push. cbv zeta.
  rewrite Sprintf_remote_reference.
  change (exec.Command "docker" _) with (push_command (Config' ecr)).
  run_step.
Qed.

End steps.

(** C10.  The image tag plays no part in validation: replacing it by any
    other string leaves the result of [validateConfig] unchanged.  In
    particular the scenario's profile with an empty tag is accepted, and
    the tag step then runs with the local reference [myapp:]. *)
Theorem validateConfig_ignores_image_tag (t : string) (p : ProfileConfig) :
  validateConfig (with_image_tag t p) = validateConfig p
  ∧ validateConfig (with_image_tag "" scenario) = None
  ∧ ∀ env w,
      started (snd (tag {| Config' := with_image_tag "" scenario |} env w)) =
        (started w ++
         [exec.Command "docker"
            ["tag"; "myapp:"; "123456789012.dkr.ecr.us-east-1.amazonaws.com/myrepo:"]])%list.
Proof.
  split; [reflexivity|]. split; [reflexivity|]. intros env w.
  rewrite tag_run. reflexivity.
Qed.

(** C4.  The tag step runs [docker tag] on the local reference
    [<image_name>:<image_tag>] and the remote reference
    [<account_id>.dkr.ecr.<region>.amazonaws.com/<repository>:<image_tag>],
    built from the fields of the profile; for the scenario's profile these
    are [myapp:latest] and
    [123456789012.dkr.ecr.us-east-1.amazonaws.com/myrepo:latest]. *)
Theorem tag_references (ecr : ECR') (env : Env) (w : World) :
  started (snd (tag ecr env w)) =
    (started w ++
     [exec.Command "docker"
        ["tag";
         ImageName (Docker (Config' ecr)) +:+ ":" +:+ ImageTag (ECR (Config' ecr));
         AccountID (ECR (Config' ecr)) +:+ ".dkr.ecr." +:+ Region (ECR (Config' ecr)) +:+
         ".amazonaws.com/" +:+ Repository (ECR (Config' ecr)) +:+ ":" +:+
         ImageTag (ECR (Config' ecr))]])%list
  ∧ started (snd (tag {| Config' := scenario |} env w)) =
    (started w ++
     [exec.Command "docker"
        ["tag"; "myapp:latest";
         "123456789012.dkr.ecr.us-east-1.amazonaws.com/myrepo:latest"]])%list.
Proof. rewrite !tag_run. split; reflexivity. Qed.

(** C5.  The push step pushes the very reference the tag step tagged: the
    remote reference in the command of [push] is equal to the one in the
    command of [tag], whatever the world either step runs in. *)
Theorem push_reference_is_tag_reference (ecr : ECR') (env env' : Env) (w w' : World) :
  ∃ localImage ecrImage,
    started (snd (tag ecr env w)) =
      (started w ++ [exec.Command "docker" ["tag"; localImage; ecrImage]])%list
    ∧ started (snd (push ecr env' w')) =
      (started w' ++ [exec.Command "docker" ["push"; ecrImage]])%list.
Proof.
  exists (local_reference (Config' ecr)), (remote_reference (Config' ecr)).
  rewrite tag_run, push_run. split; reflexivity.
Qed.

(** The text of the authenticate step: the registry host is formatted as
    [<account_id>.dkr.ecr.<region>.amazonaws.com], and the command started
    is [sh -c] on the login command line with the region and the host put
    in as they are. *)
Theorem authenticate_command (ecr : ECR') (env : Env) (w : World) :
  fmt.Sprintf "%s.dkr.ecr.%s.amazonaws.com"
    [AccountID (ECR (Config' ecr)); Region (ECR (Config' ecr))]
  = AccountID (ECR (Config' ecr)) +:+ ".dkr.ecr." +:+ Region (ECR (Config' ecr)) +:+
    ".amazonaws.com"
  ∧ started (snd (authenticate ecr env w)) =
    (started w ++
     [exec.Command "sh"
        ["-c";
         "aws ecr get-login-password --region " +:+ Region (ECR (Config' ecr)) +:+
         " | docker login --username AWS --password-stdin " +:+
         (AccountID (ECR (Config' ecr)) +:+ ".dkr.ecr." +:+ Region (ECR (Config' ecr)) +:+
          ".amazonaws.com")]])%list.
Proof.
  split; [apply Sprintf_registry_host|].
  rewrite authenticate_run. reflexivity.
Qed.

(** ** Loading *)

(** The store the loader reads the file into: it starts from an empty
    store, so the path it was given is the one it holds, empty or not. *)
Lemma registered_store (path : string) :
  registered path =
    {| viper.configFile := path; viper.configType := "yaml";
       viper.defaults := program_defaults; viper.config := ∅ |}.
Proof.
  unfold registered, viper.SetConfigFile.
  case_bool_decide as Hpath; [reflexivity|].
  rewrite Hpath. reflexivity.
Qed.

Lemma configFile_registered (path : string) : viper.configFile (registered path) = path.
Proof. by rewrite registered_store. Qed.

Lemma loadConfig_run (env : Env) (path : string) :
  loadConfig path env initial =
    match files env path with
    | Unreadable cause =>
        (Val (inr (fmt.format true "error leyendo el archivo de configuración: %w" [cause])),
         loaded_world (registered path))
    | Document d =>
        (Val match viper.Unmarshal (viper.setConfig d (registered path)) with
             | inl config => inl config
             | inr cause =>
                 inr (fmt.format true "error parseando la configuración: %w" [cause])
             end,
         loaded_world (viper.setConfig d (registered path)))
    end.
Proof.
  unfold loadConfig.
  cbv [mbind Proc_bind mret Proc_ret withViper ReadInConfig Unmarshal initial].
  cbn [settings stdout started].
  change (viper.SetDefault "profiles.dev.ecr.image_tag" "latest" _) with (registered path).
  rewrite configFile_registered.
  destruct (files env path) as [cause|d]; [reflexivity|].
  cbn [settings stdout started].
  destruct (viper.Unmarshal _); reflexivity.
Qed.

(** Loading writes nothing and starts no command. *)
Lemma loadConfig_quiet (env : Env) (path : string) :
  ∃ r v, loadConfig path env initial = (Val r, loaded_world v).
Proof.
  rewrite loadConfig_run. destruct (files env path); eauto.
Qed.

(** ** The entry point *)

Section entry.

Context (env : Env) (flags : Flags) (config : Config).

Hypothesis loaded : fst (loadConfig (configPath flags) env initial) = Val (inl config).

Lemma loaded_run :
  ∃ v, loadConfig (configPath flags) env initial = (Val (inl config), loaded_world v).
Proof using loaded.
  destruct (loadConfig_quiet env (configPath flags)) as (r & v & E).
  rewrite E in loaded. injection loaded as ->. eauto.
Qed.

Ltac enter_main v :=
  destruct loaded_run as [v Hload];
  unfold run_main, main;
  cbv [mbind Proc_bind mret Proc_ret Println Printf write Exit];
  rewrite Hload.

Lemma main_profile_missing :
  Profiles config !! profile flags = None →
  ∃ v, run_main env flags =
         (1%Z,
          printed (fmt.Sprintf
                     (ColorRed +:+ "Profile '%s' not found in configuration" +:+
                      ColorReset +:+ String LF "")
                     [profile flags])
            (loaded_world v)).
Proof using loaded.
  intros Hmissing. enter_main v. rewrite Hmissing. eauto.
Qed.

Lemma main_invalid (p : ProfileConfig) (err : string) :
  Profiles config !! profile flags = Some p →
  validateConfig p = Some err →
  ∃ w, run_main env flags =
         (1%Z, printed (line (ColorRed +:+ "Invalid configuration: " +:+ err +:+ ColorReset)) w)
       ∧ started w = [].
Proof using loaded.
  intros Hp Hinvalid. enter_main v. rewrite Hp, Hinvalid. eauto.
Qed.

Lemma main_valid (p : ProfileConfig) :
  Profiles config !! profile flags = Some p →
  validateConfig p = None →
  ∃ w, run_main env flags = (run_status env [] (four_steps p), w)
       ∧ started w = run_until_failure env [] (four_steps p).
Proof using loaded.
  intros Hp Hvalid. enter_main v. rewrite Hp, Hvalid.
  unfold four_steps. cbn [run_status run_until_failure app].
  rewrite authenticate_run. cbn [Config' started printed ran loaded_world app].
  destruct (outcome env [] (login_command p)); cbn [wrapped fmt.Errorf]; [eauto|].
  rewrite build_run. cbn [Config' started printed ran loaded_world app].
  destruct (outcome env [login_command p] (build_command p));
    cbn [wrapped fmt.Errorf]; [eauto|].
  rewrite tag_run. cbn [Config' started printed ran loaded_world app].
  destruct (outcome env [login_command p; build_command p] (tag_command p));
    cbn [wrapped fmt.Errorf]; [eauto|].
  rewrite push_run. cbn [Config' started printed ran loaded_world app].
  destruct (outcome env [login_command p; build_command p; tag_command p] (push_command p));
    cbn [wrapped fmt.Errorf]; eauto.
Qed.

End entry.

(** C6.  With a profile selected and accepted, the commands started are
    those of authenticate, build, tag and push, in this order, up to and
    including the first that fails.  When authenticate and build succeed
    and tag fails, the run ends with status 1 having started authenticate,
    build and tag, and the push command is not among the commands
    started. *)
Theorem steps_in_order_until_failure
    (env : Env) (flags : Flags) (config : Config) (p : ProfileConfig) :
  fst (loadConfig (configPath flags) env initial) = Val (inl config) →
  Profiles config !! profile flags = Some p →
  validateConfig p = None →
  (∃ w, run_main env flags = (run_status env [] (four_steps p), w)
        ∧ started w = run_until_failure env [] (four_steps p))
  ∧ (outcome env [] (login_command p) = None →
     outcome env [login_command p] (build_command p) = None →
     is_Some (outcome env [login_command p; build_command p] (tag_command p)) →
     ∃ w, run_main env flags = (1%Z, w)
          ∧ started w = [login_command p; build_command p; tag_command p]
          ∧ login_command p ∈ started w
          ∧ build_command p ∈ started w
          ∧ push_command p ∉ started w).
Proof.
  intros Hload Hp Hvalid.
  destruct (main_valid env flags config Hload p Hp Hvalid) as (w & Hrun & Hstarted).
  split; [eauto|].
  intros Hlogin Hbuild [cause Htag]. exists w.
  unfold four_steps in *. cbn [run_status run_until_failure app] in *.
  rewrite Hlogin, Hbuild, Htag in *.
  split; [exact Hrun|]. split; [exact Hstarted|]. rewrite Hstarted.
  split; [set_solver|]. split; [set_solver|].
  intros Hin. rewrite !elem_of_cons, elem_of_nil in Hin.
  destruct Hin as [H|[H|[H|[]]]]; discriminate H.
Qed.

Lemma steps_in_order_until_failure_witness :
  ∃ w, run_main (example_env "tag") default_flags = (1%Z, w)
       ∧ started w = [login_command scenario; build_command scenario; tag_command scenario]
       ∧ login_command scenario ∈ started w
       ∧ build_command scenario ∈ started w
       ∧ push_command scenario ∉ started w.
Proof.
  apply (proj2 (steps_in_order_until_failure (example_env "tag") default_flags
                  example_config scenario
                  ltac:(vm_compute; reflexivity) ltac:(vm_compute; reflexivity)
                  ltac:(vm_compute; reflexivity))).
  - vm_compute; reflexivity.
  - vm_compute; reflexivity.
  - exists "exit status 1". vm_compute; reflexivity.
Defined.

(** An account identifier that the pattern does not match is refused. *)
Lemma validateConfig_rejects_account_id (p : ProfileConfig) :
  fst (regexp.MatchString "^\d{12}$" (AccountID (ECR p))) = false →
  is_Some (validateConfig p).
Proof.
  rewrite MatchString_account, validateConfig_spec. cbn [fst]. intros Hd.
  unfold first_failure, spec_checks. rewrite Hd.
  repeat case_bool_decide; cbn [find fst snd negb fmap option_fmap option_map]; eauto.
Qed.

(** C7.  When the account identifier of the selected profile does not
    match the pattern (whatever the reason: too short, too long, a byte
    that is not a digit, empty), [validateConfig] returns an error, which
    the program prints after [Invalid configuration: ], no command is
    started and the exit status is 1. *)
Theorem malformed_account_id_stops_run
    (env : Env) (flags : Flags) (config : Config) (p : ProfileConfig) :
  fst (loadConfig (configPath flags) env initial) = Val (inl config) →
  Profiles config !! profile flags = Some p →
  fst (regexp.MatchString "^\d{12}$" (AccountID (ECR p))) = false →
  ∃ err w,
    validateConfig p = Some err
    ∧ run_main env flags = (1%Z, w)
    ∧ started w = []
    ∧ last (stdout w) =
        Some (line (ColorRed +:+ "Invalid configuration: " +:+ err +:+ ColorReset)).
Proof.
  intros Hload Hp Hid.
  destruct (validateConfig_rejects_account_id p Hid) as [err Herr].
  destruct (main_invalid env flags config Hload p err Hp Herr) as (w & Hrun & Hstarted).
  exists err. eexists. split; [exact Herr|]. split; [exact Hrun|].
  split; [exact Hstarted|]. cbn [stdout printed]. apply last_snoc.
Qed.

Lemma malformed_account_id_stops_run_witness :
  ∃ err w,
    validateConfig staging = Some err
    ∧ run_main (example_env "") {| configPath := "deploy.yml"; profile := "staging" |} = (1%Z, w)
    ∧ started w = []
    ∧ last (stdout w) =
        Some (line (ColorRed +:+ "Invalid configuration: " +:+ err +:+ ColorReset)).
Proof.
  apply (malformed_account_id_stops_run (example_env "")
           {| configPath := "deploy.yml"; profile := "staging" |} example_config staging);
    vm_compute; reflexivity.
Defined.

(** C8.  When the profile named on the command line is not in the loaded
    configuration, the run ends with status 1 having written the
    profile-not-found message and nothing else (neither the line that
    precedes validation nor a validation error) and having started no
    command. *)
Theorem missing_profile_stops_run (env : Env) (flags : Flags) (config : Config) :
  fst (loadConfig (configPath flags) env initial) = Val (inl config) →
  Profiles config !! profile flags = None →
  ∃ w, run_main env flags = (1%Z, w)
       ∧ started w = []
       ∧ stdout w =
           [ColorRed +:+ "Profile '" +:+ profile flags +:+
            "' not found in configuration" +:+ ColorReset +:+ String LF ""].
Proof.
  intros Hload Hmissing.
  destruct (main_profile_missing env flags config Hload Hmissing) as [v Hrun].
  eexists. split; [exact Hrun|]. split; [reflexivity|].
  cbn [stdout printed loaded_world app]. reflexivity.
Qed.

Lemma missing_profile_stops_run_witness :
  ∃ w, run_main (example_env "") {| configPath := "deploy.yml"; profile := "prod" |} = (1%Z, w)
       ∧ started w = []
       ∧ stdout w =
           [ColorRed +:+ "Profile '" +:+ "prod" +:+
            "' not found in configuration" +:+ ColorReset +:+ String LF ""].
Proof.
  apply (missing_profile_stops_run (example_env "")
           {| configPath := "deploy.yml"; profile := "prod" |} example_config);
    vm_compute; reflexivity.
Defined.

(** ** Defaults *)

Section decoding.

Import viper.

Lemma elem_of_profile_names (m : gmap key string) (n : string) :
  n ∈ profile_names m ↔ ∃ k, k ∈ dom m ∧ profile_of_key k = Some n.
Proof. unfold profile_names. apply elem_of_set_omap. Qed.

Lemma decode_lookup (m : gmap key string) (n : string) (p : ProfileConfig) :
  Profiles (decode m) !! n = Some p ↔ n ∈ profile_names m ∧ p = decode_profile m n.
Proof.
  unfold decode. cbn [Profiles].
  rewrite lookup_set_to_map by (intros ?? _ _ H; exact H).
  split.
  - intros (y & Hy & E). injection E as -> ->. done.
  - intros [Hn ->]. eauto.
Qed.

Lemma AllSettings_loaded (d : gmap key string) (path : string) :
  AllSettings (setConfig d (registered path)) = d ∪ program_defaults.
Proof. by rewrite registered_store. Qed.

Lemma dom_program_defaults (k : key) :
  k ∈ dom program_defaults ↔ k = region_key ∨ k = image_tag_key.
Proof.
  unfold program_defaults.
  rewrite !dom_insert_L, dom_empty_L, !elem_of_union, !elem_of_singleton, elem_of_empty.
  tauto.
Qed.

Lemma program_defaults_other (n : string) (rest : list string) :
  n ≠ "dev" → program_defaults !! ("profiles" :: n :: rest) = None.
Proof.
  intros Hn. apply not_elem_of_dom. rewrite dom_program_defaults.
  unfold region_key, image_tag_key. intros [E|E]; congruence.
Qed.

Lemma decodable_loaded (d : gmap key string) :
  forallb decodable (elements (dom d)) = true →
  forallb decodable (elements (dom (d ∪ program_defaults))) = true.
Proof.
  rewrite !forallb_forall. intros Hd k Hk.
  rewrite <- list_elem_of_In, elem_of_elements, dom_union_L, elem_of_union in Hk.
  destruct Hk as [Hk|Hk].
  - apply Hd. by rewrite <- list_elem_of_In, elem_of_elements.
  - apply dom_program_defaults in Hk as [-> | ->]; reflexivity.
Qed.

Lemma dev_is_loaded (d : gmap key string) : "dev" ∈ profile_names (d ∪ program_defaults).
Proof.
  apply elem_of_profile_names. exists region_key. split; [|reflexivity].
  rewrite dom_union_L, elem_of_union, dom_program_defaults. auto.
Qed.

Lemma profile_names_other (d : gmap key string) (n : string) :
  n ≠ "dev" → n ∈ profile_names (d ∪ program_defaults) ↔ n ∈ profile_names d.
Proof.
  intros Hn. rewrite !elem_of_profile_names. split.
  - intros (k & Hk & E). exists k. split; [|exact E].
    rewrite dom_union_L, elem_of_union, dom_program_defaults in Hk.
    destruct Hk as [Hk|[-> | ->]]; [exact Hk | |]; vm_compute in E; congruence.
  - intros (k & Hk & E). exists k. split; [|exact E].
    rewrite dom_union_L, elem_of_union. auto.
Qed.

Lemma decode_profile_other (d : gmap key string) (n : string) :
  n ≠ "dev" → decode_profile (d ∪ program_defaults) n = decode_profile d n.
Proof.
  intros Hn. unfold decode_profile, field.
  by rewrite !lookup_union_l by (by apply program_defaults_other).
Qed.

End decoding.

(** C3.  Loading a document that fits the expected structure succeeds,
    and in the configuration it returns the profile [dev] has the region
    [us-east-1] when the document gives none and the image tag [latest]
    when the document gives none, while every profile of another name is
    exactly what the document alone decodes to: a region or an image tag
    it leaves out stays empty. *)
Theorem loadConfig_defaults (env : Env) (path : string) (d : gmap viper.key string) :
  files env path = Document d →
  forallb viper.decodable (elements (dom d)) = true →
  ∃ config w,
    loadConfig path env initial = (Val (inl config), w)
    ∧ (d !! region_key = None →
       ∃ p, Profiles config !! "dev" = Some p ∧ Region (ECR p) = "us-east-1")
    ∧ (d !! image_tag_key = None →
       ∃ p, Profiles config !! "dev" = Some p ∧ ImageTag (ECR p) = "latest")
    ∧ (∀ n, n ≠ "dev" →
         Profiles config !! n = Profiles (viper.decode d) !! n
         ∧ ∀ p, Profiles config !! n = Some p →
             Region (ECR p) = default "" (d !! ["profiles"; n; "ecr"; "region"])
             ∧ ImageTag (ECR p) = default "" (d !! ["profiles"; n; "ecr"; "image_tag"])).
Proof.
  intros Hfile Hfits.
  rewrite loadConfig_run, Hfile. unfold viper.Unmarshal.
  rewrite AllSettings_loaded, decodable_loaded by exact Hfits.
  eexists _, _. split; [reflexivity|].
  split; [|split].
  - intros Hnone. eexists. split.
    + apply decode_lookup. split; [apply dev_is_loaded | reflexivity].
    + cbn [viper.decode_profile ECR Region]. unfold viper.field.
      rewrite lookup_union_r by exact Hnone. reflexivity.
  - intros Hnone. eexists. split.
    + apply decode_lookup. split; [apply dev_is_loaded | reflexivity].
    + cbn [viper.decode_profile ECR ImageTag]. unfold viper.field.
      rewrite lookup_union_r by exact Hnone. reflexivity.
  - intros n Hn. split.
    + apply option_eq. intros p. rewrite !decode_lookup.
      by rewrite profile_names_other, decode_profile_other.
    + intros p [_ ->]%decode_lookup.
      rewrite decode_profile_other by exact Hn. split; reflexivity.
Qed.

Lemma loadConfig_defaults_witness :
  ∃ config w,
    loadConfig "deploy.yml" (example_env "") initial = (Val (inl config), w)
    ∧ (example_document !! region_key = None →
       ∃ p, Profiles config !! "dev" = Some p ∧ Region (ECR p) = "us-east-1")
    ∧ (example_document !! image_tag_key = None →
       ∃ p, Profiles config !! "dev" = Some p ∧ ImageTag (ECR p) = "latest")
    ∧ (∀ n, n ≠ "dev" →
         Profiles config !! n = Profiles (viper.decode example_document) !! n
         ∧ ∀ p, Profiles config !! n = Some p →
             Region (ECR p) = default "" (example_document !! ["profiles"; n; "ecr"; "region"])
             ∧ ImageTag (ECR p) =
                 default "" (example_document !! ["profiles"; n; "ecr"; "image_tag"])).
Proof.
  apply (loadConfig_defaults (example_env "") "deploy.yml" example_document);
    vm_compute; reflexivity.
Defined.

(** * Further properties of the program *)

(** ** Errors wrapped with [%w] *)

Lemma format_wrap_login (cause : string) :
  fmt.format true "error durante la autenticación con ECR: %w" [cause]
  = "error durante la autenticación con ECR: " +:+ cause.
Proof. cbn. by rewrite append_empty_r. Qed.

Lemma format_wrap_build (cause : string) :
  fmt.format true "error al construir la imagen Docker: %w" [cause]
  = "error al construir la imagen Docker: " +:+ cause.
Proof. cbn. by rewrite append_empty_r. Qed.

Lemma format_wrap_tag (cause : string) :
  fmt.format true "error al etiquetar la imagen Docker: %w" [cause]
  = "error al etiquetar la imagen Docker: " +:+ cause.
Proof. cbn. by rewrite append_empty_r. Qed.

Lemma format_wrap_push (cause : string) :
  fmt.format true "error al empujar la imagen Docker: %w" [cause]
  = "error al empujar la imagen Docker: " +:+ cause.
Proof. cbn. by rewrite append_empty_r. Qed.

Lemma format_wrap_read (cause : string) :
  fmt.format true "error leyendo el archivo de configuración: %w" [cause]
  = "error leyendo el archivo de configuración: " +:+ cause.
Proof. cbn. by rewrite append_empty_r. Qed.

Lemma format_wrap_parse (cause : string) :
  fmt.format true "error parseando la configuración: %w" [cause]
  = "error parseando la configuración: " +:+ cause.
Proof. cbn. by rewrite append_empty_r. Qed.

Lemma wrapped_spec (f context : string) (err : error) :
  (∀ cause, fmt.format true f [cause] = context +:+ cause) →
  wrapped f err = (λ cause, context +:+ cause) <$> err.
Proof.
  intros Hf. destruct err as [cause|]; unfold wrapped, fmt.Errorf;
    cbn [fmap option_fmap option_map]; [by rewrite Hf | reflexivity].
Qed.

(** ** The steps, one by one *)

(** X1.  The build step runs [docker build -t <image_name> .]: the image
    is built under the bare name, and nothing of the registry settings
    (region, account, repository, tag) reaches the command. *)
Theorem build_uses_bare_name (ecr : ECR') (e : ECRConfig) (env : Env) (w : World) :
  started (snd (build ecr env w)) =
    (started w ++
     [exec.Command "docker" ["build"; "-t"; ImageName (Docker (Config' ecr)); "."]])%list
  ∧ started (snd (build {| Config' := with_ecr e (Config' ecr) |} env w)) =
    started (snd (build ecr env w)).
Proof. rewrite !build_run. split; reflexivity. Qed.

(** X2.  Each step returns [nil] exactly when its command succeeds, and
    otherwise an error whose message is the step's own context followed by
    the cause reported for the command. *)
Theorem steps_wrap_the_cause (ecr : ECR') (env : Env) (w : World) :
  fst (authenticate ecr env w) =
    Val ((λ cause, "error durante la autenticación con ECR: " +:+ cause)
           <$> outcome env (started w) (login_command (Config' ecr)))
  ∧ fst (build ecr env w) =
    Val ((λ cause, "error al construir la imagen Docker: " +:+ cause)
           <$> outcome env (started w) (build_command (Config' ecr)))
  ∧ fst (tag ecr env w) =
    Val ((λ cause, "error al etiquetar la imagen Docker: " +:+ cause)
           <$> outcome env (started w) (tag_command (Config' ecr)))
  ∧ fst (push ecr env w) =
    Val ((λ cause, "error al empujar la imagen Docker: " +:+ cause)
           <$> outcome env (started w) (push_command (Config' ecr))).
Proof.
  rewrite authenticate_run, build_run, tag_run, push_run. cbn [fst].
  rewrite (wrapped_spec _ _ _ format_wrap_login), (wrapped_spec _ _ _ format_wrap_build),
    (wrapped_spec _ _ _ format_wrap_tag), (wrapped_spec _ _ _ format_wrap_push).
  repeat split.
Qed.

(** X3.  Whatever the environment and the world, each step writes one
    line, starts exactly one command and returns to [main]: a step never
    retries, never ends the process and never touches the settings. *)
Theorem steps_run_one_command (ecr : ECR') :
  runs_one_command (authenticate ecr) (login_command (Config' ecr))
  ∧ runs_one_command (build ecr) (build_command (Config' ecr))
  ∧ runs_one_command (tag ecr) (tag_command (Config' ecr))
  ∧ runs_one_command (push ecr) (push_command (Config' ecr)).
Proof.
  repeat split; intros env w.
  - rewrite authenticate_run. eauto.
  - rewrite build_run. eauto.
  - rewrite tag_run. eauto.
  - rewrite push_run. eauto.
Qed.

(** ** Whole runs *)

Section runs.

Context (env : Env) (flags : Flags).

Ltac enter_main v Hload :=
  unfold run_main, main;
  cbv [mbind Proc_bind mret Proc_ret Println Printf write Exit];
  rewrite Hload.

Lemma load_result :
  ∃ r v, loadConfig (configPath flags) env initial = (Val r, loaded_world v)
         ∧ fst (loadConfig (configPath flags) env initial) = Val r.
Proof.
  destruct (loadConfig_quiet env (configPath flags)) as (r & v & E).
  exists r, v. by rewrite E.
Qed.

Lemma main_load_error (err : string) :
  fst (loadConfig (configPath flags) env initial) = Val (inr err) →
  run_main env flags = (1%Z, printed (load_failure_line err)
                               (snd (loadConfig (configPath flags) env initial))).
Proof.
  intros Herr. destruct load_result as (r & v & Hload & Hr).
  rewrite Hr in Herr. injection Herr as ->.
  enter_main v Hload. reflexivity.
Qed.

Lemma main_valid_world (config : Config) (p : ProfileConfig) :
  fst (loadConfig (configPath flags) env initial) = Val (inl config) →
  Profiles config !! profile flags = Some p →
  validateConfig p = None →
  run_main env flags =
    (run_status env [] (four_steps p),
     {| settings := settings (snd (loadConfig (configPath flags) env initial));
        stdout := loaded_line (profile flags) p :: transcript env [] (step_table p);
        started := run_until_failure env [] (four_steps p) |}).
Proof.
  intros Hloaded Hp Hvalid. destruct load_result as (r & v & Hload & Hr).
  rewrite Hr in Hloaded. injection Hloaded as ->.
  enter_main v Hload. rewrite Hp, Hvalid.
  unfold four_steps, step_table.
  cbn [run_status run_until_failure transcript row_command row_banner app].
  rewrite authenticate_run. cbn [Config' started printed ran loaded_world app].
  destruct (outcome env [] (login_command p)) as [cause|];
    cbn [wrapped fmt.Errorf]; [by rewrite format_wrap_login|].
  rewrite build_run. cbn [Config' started printed ran loaded_world app].
  destruct (outcome env [login_command p] (build_command p)) as [cause|];
    cbn [wrapped fmt.Errorf]; [by rewrite format_wrap_build|].
  rewrite tag_run. cbn [Config' started printed ran loaded_world app].
  destruct (outcome env [login_command p; build_command p] (tag_command p)) as [cause|];
    cbn [wrapped fmt.Errorf]; [by rewrite format_wrap_tag|].
  rewrite push_run. cbn [Config' started printed ran loaded_world app].
  destruct (outcome env [login_command p; build_command p; tag_command p] (push_command p))
    as [cause|]; cbn [wrapped fmt.Errorf]; [by rewrite format_wrap_push|].
  reflexivity.
Qed.

End runs.

(** ** Running a list of commands until one fails *)

Lemma run_status_zero_or_one (env : Env) (todo done : list exec.Cmd) :
  run_status env done todo = 0%Z ∨ run_status env done todo = 1%Z.
Proof.
  revert done. induction todo as [|c todo IH]; intros done; cbn [run_status].
  - by left.
  - destruct (outcome env done c); [by right | apply IH].
Qed.

Lemma run_status_zero_iff (env : Env) (todo done : list exec.Cmd) :
  run_status env done todo = 0%Z ↔ all_succeed env done todo.
Proof.
  revert done. induction todo as [|c todo IH]; intros done; cbn [run_status all_succeed].
  - done.
  - destruct (outcome env done c) as [cause|].
    + split; [discriminate | intros [? _]; discriminate].
    + rewrite IH. split; [intros H; by split | intros [_ H]; exact H].
Qed.

Lemma run_until_failure_all (env : Env) (todo done : list exec.Cmd) :
  all_succeed env done todo → run_until_failure env done todo = (done ++ todo)%list.
Proof.
  revert done. induction todo as [|c todo IH]; intros done; cbn [run_until_failure all_succeed].
  - by rewrite app_nil_r.
  - intros [-> Hrest]. rewrite IH by exact Hrest. by rewrite <- app_assoc.
Qed.

(** The commands started extend those already run by a prefix of the
    list, and by its first command at least. *)
Lemma run_until_failure_prefix (env : Env) (todo done : list exec.Cmd) :
  ∃ k, run_until_failure env done todo = (done ++ take k todo)%list
       ∧ (todo ≠ [] → 0 < k).
Proof.
  revert done. induction todo as [|c todo IH]; intros done; cbn [run_until_failure].
  - exists 0. by rewrite app_nil_r.
  - destruct (outcome env done c).
    + exists 1. split; [reflexivity | lia].
    + destruct (IH (done ++ [c])%list) as (k & -> & _). exists (S k).
      split; [by rewrite <- app_assoc | lia].
Qed.

(** ** The ways a run can go *)

Lemma main_cases (env : Env) (flags : Flags) :
  (∃ err, fst (loadConfig (configPath flags) env initial) = Val (inr err)
          ∧ fst (run_main env flags) = 1%Z
          ∧ started (snd (run_main env flags)) = [])
  ∨ (∃ config, fst (loadConfig (configPath flags) env initial) = Val (inl config)
          ∧ (Profiles config !! profile flags = None
             ∨ ∃ p, Profiles config !! profile flags = Some p ∧ is_Some (validateConfig p))
          ∧ fst (run_main env flags) = 1%Z
          ∧ started (snd (run_main env flags)) = [])
  ∨ (∃ config p, fst (loadConfig (configPath flags) env initial) = Val (inl config)
          ∧ Profiles config !! profile flags = Some p
          ∧ validateConfig p = None
          ∧ fst (run_main env flags) = run_status env [] (four_steps p)
          ∧ started (snd (run_main env flags)) = run_until_failure env [] (four_steps p)).
Proof.
  destruct (load_result env flags) as ([config|err] & v & Hload & Hr).
  - right. destruct (Profiles config !! profile flags) as [p|] eqn:Hp.
    + destruct (validateConfig p) as [err|] eqn:Hv.
      * left. exists config. split; [exact Hr|]. split; [right; eauto|].
        destruct (main_invalid env flags config Hr p err Hp Hv) as (w & -> & Hs). done.
      * right. exists config, p. rewrite (main_valid_world env flags config p Hr Hp Hv). done.
    + left. exists config. split; [exact Hr|]. split; [by left|].
      destruct (main_profile_missing env flags config Hr Hp) as (v' & ->). done.
  - left. exists err. split; [exact Hr|].
    rewrite (main_load_error env flags err Hr), Hload. done.
Qed.

(** X4.  Once a profile is selected and accepted, what the program writes
    is the line showing the profile, then the banner of each step reached,
    then the failure of the first step whose command fails (the words of
    [main], the words of the step, the cause) or, when all four succeed,
    the success line. *)
Theorem run_output
    (env : Env) (flags : Flags) (config : Config) (p : ProfileConfig) :
  fst (loadConfig (configPath flags) env initial) = Val (inl config) →
  Profiles config !! profile flags = Some p →
  validateConfig p = None →
  stdout (snd (run_main env flags)) =
    loaded_line (profile flags) p :: transcript env [] (step_table p).
Proof.
  intros Hload Hp Hvalid. by rewrite (main_valid_world env flags config p Hload Hp Hvalid).
Qed.

Lemma run_output_witness :
  stdout (snd (run_main (example_env "tag") default_flags)) =
    loaded_line "dev" scenario :: transcript (example_env "tag") [] (step_table scenario).
Proof.
  apply (run_output (example_env "tag") default_flags example_config scenario);
    vm_compute; reflexivity.
Defined.

(** X5.  When the profile is accepted and each of the four commands
    succeeds after the ones before it, the run ends with status 0, the
    four commands have been started in the order authenticate, build, tag,
    push, and the success line is the last thing written. *)
Theorem all_steps_succeed
    (env : Env) (flags : Flags) (config : Config) (p : ProfileConfig) :
  fst (loadConfig (configPath flags) env initial) = Val (inl config) →
  Profiles config !! profile flags = Some p →
  validateConfig p = None →
  all_succeed env [] (four_steps p) →
  ∃ w, run_main env flags = (0%Z, w)
       ∧ started w = four_steps p
       ∧ stdout w = loaded_line (profile flags) p ::
                    (line ∘ row_banner <$> step_table p) ++ [success_line].
Proof.
  intros Hload Hp Hvalid Hall.
  rewrite (main_valid_world env flags config p Hload Hp Hvalid).
  eexists. split; [|split]; cbn [started stdout].
  - f_equal. by apply run_status_zero_iff.
  - by rewrite run_until_failure_all.
  - destruct Hall as (H1 & H2 & H3 & H4 & _). cbn [app] in *.
    unfold step_table. cbn [transcript row_command app].
    by rewrite H1, H2, H3, H4.
Qed.

Lemma all_steps_succeed_witness :
  ∃ w, run_main (example_env "") default_flags = (0%Z, w)
       ∧ started w = four_steps scenario
       ∧ stdout w = loaded_line "dev" scenario ::
                    (line ∘ row_banner <$> step_table scenario) ++ [success_line].
Proof.
  apply (all_steps_succeed (example_env "") default_flags example_config scenario);
    vm_compute; try reflexivity; repeat split.
Defined.

(** Past the parsing of the flags the exit status is 0 or 1, and it is 0
    only if a configuration was loaded, the named profile was in it and
    passed validation, and all four commands ran and succeeded. *)
Lemma exit_status_past_flags (env : Env) (flags : Flags) :
  (fst (run_main env flags) = 0%Z ∨ fst (run_main env flags) = 1%Z)
  ∧ (fst (run_main env flags) = 0%Z →
     ∃ config p,
       fst (loadConfig (configPath flags) env initial) = Val (inl config)
       ∧ Profiles config !! profile flags = Some p
       ∧ validateConfig p = None
       ∧ all_succeed env [] (four_steps p)
       ∧ started (snd (run_main env flags)) = four_steps p).
Proof.
  destruct (main_cases env flags)
    as [(err & _ & Hc & _) | [(config & _ & _ & Hc & _) | (config & p & Hl & Hp & Hv & Hc & Hs)]].
  - rewrite Hc. split; [by right | discriminate].
  - rewrite Hc. split; [by right | discriminate].
  - rewrite Hc, Hs. split; [apply run_status_zero_or_one|].
    intros Hzero%run_status_zero_iff. exists config, p.
    by rewrite run_until_failure_all.
Qed.

(** X7.  No command is ever started unless a configuration was loaded and
    the named profile was found in it and passed validation; and then the
    first command started is the login pipeline for that profile. *)
Theorem commands_only_after_validation (env : Env) (flags : Flags) :
  started (snd (run_main env flags)) ≠ [] →
  ∃ config p,
    fst (loadConfig (configPath flags) env initial) = Val (inl config)
    ∧ Profiles config !! profile flags = Some p
    ∧ validateConfig p = None
    ∧ head (started (snd (run_main env flags))) = Some (login_command p).
Proof.
  intros Hsome.
  destruct (main_cases env flags)
    as [(err & _ & _ & Hs) | [(config & _ & _ & _ & Hs) | (config & p & Hl & Hp & Hv & _ & Hs)]];
    [done | done |].
  exists config, p. repeat (split; [assumption|]). rewrite Hs.
  destruct (run_until_failure_prefix env (four_steps p) []) as (k & -> & Hk).
  destruct k as [|k]; [exfalso; by apply (Nat.lt_irrefl 0), Hk | reflexivity].
Qed.

Lemma commands_only_after_validation_witness :
  ∃ config p,
    fst (loadConfig "deploy.yml" (example_env "tag") initial) = Val (inl config)
    ∧ Profiles config !! "dev" = Some p
    ∧ validateConfig p = None
    ∧ head (started (snd (run_main (example_env "tag") default_flags))) = Some (login_command p).
Proof.
  apply (commands_only_after_validation (example_env "tag") default_flags).
  vm_compute. discriminate.
Defined.

(** ** Failures of the loader *)

(** X8.  When the configuration file cannot be read, the run ends with
    status 1 without starting a command, and the one line written gives
    the cause after [Error loading configuration: ] and the loader's own
    context. *)
Theorem unreadable_file_stops_run (env : Env) (flags : Flags) (cause : string) :
  files env (configPath flags) = Unreadable cause →
  ∃ w, run_main env flags = (1%Z, w)
       ∧ started w = []
       ∧ stdout w =
           [load_failure_line ("error leyendo el archivo de configuración: " +:+ cause)].
Proof.
  intros Hfile.
  assert (fst (loadConfig (configPath flags) env initial)
          = Val (inr ("error leyendo el archivo de configuración: " +:+ cause))) as Hload.
  { by rewrite loadConfig_run, Hfile, format_wrap_read. }
  rewrite (main_load_error env flags _ Hload), loadConfig_run, Hfile.
  eexists. split; [reflexivity|]. split; reflexivity.
Qed.

Lemma unreadable_file_stops_run_witness :
  ∃ w, run_main (env_with (Unreadable "permission denied")) default_flags = (1%Z, w)
       ∧ started w = []
       ∧ stdout w =
           [load_failure_line
              ("error leyendo el archivo de configuración: " +:+ "permission denied")].
Proof.
  apply (unreadable_file_stops_run (env_with (Unreadable "permission denied")) default_flags).
  reflexivity.
Defined.

(** X9.  When the file is read but its settings, together with the
    registered defaults, cannot be decoded into [Config], the run ends
    with status 1 without starting a command, and the one line written
    gives the decoder's cause after [Error loading configuration: ] and
    the loader's context for this failure. *)
Theorem undecodable_file_stops_run
    (env : Env) (flags : Flags) (d : gmap viper.key string) (cause : string) :
  files env (configPath flags) = Document d →
  viper.Unmarshal (viper.setConfig d (registered (configPath flags))) = inr cause →
  ∃ w, run_main env flags = (1%Z, w)
       ∧ started w = []
       ∧ stdout w = [load_failure_line ("error parseando la configuración: " +:+ cause)].
Proof.
  intros Hfile Hdecode.
  assert (fst (loadConfig (configPath flags) env initial)
          = Val (inr ("error parseando la configuración: " +:+ cause))) as Hload.
  { by rewrite loadConfig_run, Hfile, Hdecode, format_wrap_parse. }
  rewrite (main_load_error env flags _ Hload), loadConfig_run, Hfile.
  eexists. split; [reflexivity|]. split; reflexivity.
Qed.

Lemma undecodable_file_stops_run_witness :
  ∃ w, run_main (env_with (Document misshapen_document)) default_flags = (1%Z, w)
       ∧ started w = []
       ∧ stdout w =
           [load_failure_line
              ("error parseando la configuración: " +:+
               "decoding failed: a setting does not fit the expected structure")].
Proof.
  apply (undecodable_file_stops_run (env_with (Document misshapen_document)) default_flags
           misshapen_document);
    vm_compute; reflexivity.
Defined.

(** X10.  Whatever world it starts in, [loadConfig] comes back to its
    caller with a configuration or an error: it never ends the process,
    writes nothing and starts no command. *)
Theorem loadConfig_only_touches_settings (env : Env) (path : string) (w : World) :
  ∃ r w', loadConfig path env w = (Val r, w')
          ∧ stdout w' = stdout w
          ∧ started w' = started w.
Proof.
  unfold loadConfig.
  cbv [mbind Proc_bind mret Proc_ret withViper ReadInConfig Unmarshal].
  cbn [settings stdout started].
  destruct (files env _) as [cause|d]; [by eexists _, _|].
  cbn [settings]. destruct (viper.Unmarshal _); by eexists _, _.
Qed.

(** ** What the loader returns *)

Lemma field_of_document (d : gmap viper.key string) (k : viper.key) (v : string) :
  d !! k = Some v → viper.field (d ∪ program_defaults) k = v.
Proof.
  intros Hk. unfold viper.field. by rewrite lookup_union_l', Hk by (by rewrite Hk).
Qed.

Lemma field_of_default (d : gmap viper.key string) (k : viper.key) :
  viper.field (d ∪ program_defaults) k
  = default (default "" (program_defaults !! k)) (d !! k).
Proof.
  unfold viper.field. destruct (d !! k) as [v|] eqn:Hk.
  - by rewrite lookup_union_l', Hk by (by rewrite Hk).
  - by rewrite lookup_union_r.
Qed.

Lemma named_in_document (d : gmap viper.key string) (n section field v : string) :
  d !! ["profiles"; n; section; field] = Some v →
  n ∈ viper.profile_names (d ∪ program_defaults).
Proof.
  intros Hk. apply elem_of_profile_names. exists ["profiles"; n; section; field].
  split; [|reflexivity].
  rewrite dom_union_L, elem_of_union. left. apply elem_of_dom. eauto.
Qed.

(** X11.  What the document says at a leaf that the structs name is what
    the loaded profile holds in the field of that name, for every profile
    and for [dev] too: a value in the file is never replaced by a
    default, and every profile the document gives a value to is in the
    loaded table. *)
Theorem document_values_are_loaded
    (env : Env) (path : string) (d : gmap viper.key string) :
  files env path = Document d →
  forallb viper.decodable (elements (dom d)) = true →
  ∃ config w,
    loadConfig path env initial = (Val (inl config), w)
    ∧ ∀ n section field v,
        viper.known_field section field = true →
        d !! ["profiles"; n; section; field] = Some v →
        ∃ p, Profiles config !! n = Some p ∧ leaf_value p section field = Some v.
Proof.
  intros Hfile Hfits.
  rewrite loadConfig_run, Hfile. unfold viper.Unmarshal.
  rewrite AllSettings_loaded, decodable_loaded by exact Hfits.
  eexists _, _. split; [reflexivity|].
  intros n section field v Hknown Hleaf.
  exists (viper.decode_profile (d ∪ program_defaults) n). split.
  { apply decode_lookup. split; [by eapply named_in_document | reflexivity]. }
  unfold viper.known_field in Hknown.
  apply orb_true_iff in Hknown as [Hecr | Hdocker].
  - apply bool_decide_eq_true in Hecr as [-> Hfield].
    rewrite !elem_of_cons, elem_of_nil in Hfield.
    destruct Hfield as [-> | [-> | [-> | [-> | []]]]];
      unfold leaf_value; cbn; f_equal; by apply field_of_document.
  - apply bool_decide_eq_true in Hdocker as [-> ->].
    unfold leaf_value; cbn; f_equal; by apply field_of_document.
Qed.

Lemma document_values_are_loaded_witness :
  ∃ config w,
    loadConfig "deploy.yml" (example_env "") initial = (Val (inl config), w)
    ∧ ∀ n section field v,
        viper.known_field section field = true →
        example_document !! ["profiles"; n; section; field] = Some v →
        ∃ p, Profiles config !! n = Some p ∧ leaf_value p section field = Some v.
Proof.
  apply (document_values_are_loaded (example_env "") "deploy.yml" example_document);
    vm_compute; reflexivity.
Defined.

(** X12.  A configuration that loads always has a profile [dev], whether
    or not the document mentions one: its region and image tag are those
    of the document, or [us-east-1] and [latest] where the document has
    none, and its account identifier, repository and image name are those
    of the document, or empty. *)
Theorem dev_profile_always_loaded
    (env : Env) (path : string) (d : gmap viper.key string) :
  files env path = Document d →
  forallb viper.decodable (elements (dom d)) = true →
  ∃ config w,
    loadConfig path env initial = (Val (inl config), w)
    ∧ Profiles config !! "dev" =
        Some {| ECR := {| Region := default "us-east-1" (d !! region_key);
                          AccountID := default "" (d !! ["profiles"; "dev"; "ecr"; "account_id"]);
                          Repository := default "" (d !! ["profiles"; "dev"; "ecr"; "repository"]);
                          ImageTag := default "latest" (d !! image_tag_key) |};
                Docker := {| ImageName :=
                               default "" (d !! ["profiles"; "dev"; "docker"; "image_name"]) |} |}.
Proof.
  intros Hfile Hfits.
  rewrite loadConfig_run, Hfile. unfold viper.Unmarshal.
  rewrite AllSettings_loaded, decodable_loaded by exact Hfits.
  eexists _, _. split; [reflexivity|].
  apply decode_lookup. split; [apply dev_is_loaded|].
  unfold viper.decode_profile. by rewrite !field_of_default.
Qed.

Lemma dev_profile_always_loaded_witness :
  ∃ config w,
    loadConfig "deploy.yml" (env_with (Document ∅)) initial = (Val (inl config), w)
    ∧ Profiles config !! "dev" =
        Some {| ECR := {| Region := "us-east-1"; AccountID := "";
                          Repository := ""; ImageTag := "latest" |};
                Docker := {| ImageName := "" |} |}.
Proof.
  exact (dev_profile_always_loaded (env_with (Document ∅)) "deploy.yml" ∅
           eq_refl eq_refl).
Defined.

(** ** What validation does not check *)

(** X13.  Validation asks nothing of the region but that it is not empty:
    an accepted profile stays accepted under any other non-empty region,
    and the authenticate step then puts that region, byte for byte, into
    the command line it hands to [sh -c]. *)
Theorem region_reaches_the_shell (p : ProfileConfig) (r : string) (env : Env) (w : World) :
  validateConfig p = None →
  r ≠ "" →
  validateConfig (with_region r p) = None
  ∧ started (snd (authenticate {| Config' := with_region r p |} env w)) =
      (started w ++
       [exec.Command "sh"
          ["-c";
           "aws ecr get-login-password --region " +:+ r +:+
           " | docker login --username AWS --password-stdin " +:+
           (AccountID (ECR p) +:+ ".dkr.ecr." +:+ r +:+ ".amazonaws.com")]])%list.
Proof.
  intros Hvalid Hr. split; [|by rewrite authenticate_run].
  rewrite validateConfig_spec in *. unfold first_failure, spec_checks in *.
  cbn [with_region ECR Docker Region AccountID Repository ImageName] in *.
  rewrite (bool_decide_eq_false_2 (r = "")) by exact Hr.
  destruct (bool_decide (Region (ECR p) = "")); [discriminate Hvalid | exact Hvalid].
Qed.

Lemma region_reaches_the_shell_witness :
  validateConfig (with_region "eu-west-1; id" scenario) = None
  ∧ started (snd (authenticate {| Config' := with_region "eu-west-1; id" scenario |}
                    (example_env "") initial)) =
      (started initial ++
       [exec.Command "sh"
          ["-c";
           "aws ecr get-login-password --region " +:+ "eu-west-1; id" +:+
           " | docker login --username AWS --password-stdin " +:+
           (AccountID (ECR scenario) +:+ ".dkr.ecr." +:+ "eu-west-1; id" +:+
            ".amazonaws.com")]])%list.
Proof.
  apply (region_reaches_the_shell scenario "eu-west-1; id" (example_env "") initial);
    [reflexivity | discriminate].
Defined.

(** ** A profile that is refused *)

(** X14.  Whatever check the selected profile fails, the run ends with
    status 1 without starting a command, having written two lines: the
    selected profile with all its fields, which is shown before it is
    validated, and the validation error after [Invalid configuration: ]. *)
Theorem invalid_profile_stops_run
    (env : Env) (flags : Flags) (config : Config) (p : ProfileConfig) (err : string) :
  fst (loadConfig (configPath flags) env initial) = Val (inl config) →
  Profiles config !! profile flags = Some p →
  validateConfig p = Some err →
  ∃ w, run_main env flags = (1%Z, w)
       ∧ started w = []
       ∧ stdout w =
           [loaded_line (profile flags) p;
            line (ColorRed +:+ "Invalid configuration: " +:+ err +:+ ColorReset)].
Proof.
  intros Hloaded Hp Hinvalid.
  destruct (load_result env flags) as (r & v & Hload & Hr).
  rewrite Hr in Hloaded. injection Hloaded as ->.
  unfold run_main, main.
  cbv [mbind Proc_bind mret Proc_ret Println Printf write Exit].
  rewrite Hload, Hp, Hinvalid.
  eexists. split; [reflexivity|]. split; reflexivity.
Qed.

Lemma invalid_profile_stops_run_witness :
  ∃ w, run_main (example_env "") {| configPath := "deploy.yml"; profile := "staging" |}
       = (1%Z, w)
       ∧ started w = []
       ∧ stdout w =
           [loaded_line "staging" staging;
            line (ColorRed +:+ "Invalid configuration: " +:+
                  "ecr.account_id debe ser una cadena de 12 dígitos" +:+ ColorReset)].
Proof.
  apply (invalid_profile_stops_run (example_env "")
           {| configPath := "deploy.yml"; profile := "staging" |} example_config staging);
    vm_compute; reflexivity.
Defined.

(** ** How the shell reads the login command line *)

Section shell.

Import sh.

Lemma string_app_assoc (a b c : string) : (a +:+ b) +:+ c = a +:+ (b +:+ c).
Proof. induction a as [|x a IH]; [reflexivity | exact (f_equal (String x) IH)]. Qed.

Lemma scan_app (a b : string) (st : state) :
  scan st (a +:+ b) = scan st a ≫= λ st', scan st' b.
Proof.
  revert st. induction a as [|x a IH]; intros st; [reflexivity|].
  change (String x a +:+ b) with (String x (a +:+ b)).
  cbn [scan]. destruct (step st x); [apply IH | reflexivity].
Qed.

Lemma scan_word (w : string) (ts : list token) (cur : string) :
  all_word w = true → scan (ts, cur) w = Some (ts, cur +:+ w).
Proof.
  revert cur. induction w as [|x w IH]; intros cur Hw.
  - by rewrite append_empty_r.
  - cbn [all_word] in Hw. apply andb_true_iff in Hw as [Hx Hw].
    cbn [scan]. unfold step. rewrite Hx. cbn [fst snd].
    rewrite IH by exact Hw. by rewrite string_app_assoc.
Qed.

(** The tokens already read play no part in reading the rest. *)
Lemma scan_prepend (s : string) (ts l : list token) (cur : string) :
  scan ((ts ++ l)%list, cur) s = (λ st, ((ts ++ fst st)%list, snd st)) <$> scan (l, cur) s.
Proof.
  revert l cur. induction s as [|x s IH]; intros l cur; [reflexivity|].
  cbn [scan]. unfold step, close. cbn [fst snd].
  destruct (word_byte x); [apply IH|].
  destruct cur as [|y cur];
    repeat (match goal with |- context [if ?b then _ else _] => destruct b end);
    rewrite <- ?app_assoc; try apply IH; reflexivity.
Qed.

Lemma scan_after (s : string) (ts : list token) (cur : string) :
  scan (ts, cur) s = (λ st, ((ts ++ fst st)%list, snd st)) <$> scan ([], cur) s.
Proof. rewrite <- (app_nil_r ts) at 1. apply scan_prepend. Qed.

Lemma all_word_app (a b : string) : all_word (a +:+ b) = all_word a && all_word b.
Proof.
  induction a as [|x a IH]; [reflexivity|].
  change (String x a +:+ b) with (String x (a +:+ b)).
  cbn [all_word]. by rewrite IH, andb_assoc.
Qed.

Lemma digits_are_words (s : string) : all_digits s = true → all_word s = true.
Proof.
  induction s as [|x s IH]; [reflexivity|]. cbn [all_digits all_word].
  intros [Hx Hs]%andb_true_iff. rewrite IH by exact Hs.
  unfold word_byte. by rewrite Hx, orb_true_r.
Qed.

(** The login command line with a word for the region and a word for the
    host is read as one pipeline of two commands. *)
Lemma parse_login_text (r host : string) :
  r ≠ "" → host ≠ "" → all_word r = true → all_word host = true →
  parse ("aws ecr get-login-password --region " +:+ r +:+
         " | docker login --username AWS --password-stdin " +:+ host)
  = Some [[(password_words ++ [r])%list; (login_words ++ [host])%list]].
Proof.
  intros Hr Hhost Hrw Hhw. unfold parse, lex.
  rewrite scan_app.
  assert (scan ([], "") "aws ecr get-login-password --region "
          = Some (Word <$> password_words, "")) as -> by reflexivity.
  cbn [mbind option_bind].
  rewrite scan_app, scan_word by exact Hrw. cbn [mbind option_bind].
  change ("" +:+ r) with r.
  rewrite scan_app.
  assert (scan (Word <$> password_words, r)
            " | docker login --username AWS --password-stdin "
          = Some (((Word <$> password_words) ++ [Word r] ++ [Pipe] ++ (Word <$> login_words))%list,
                  "")) as ->.
  { destruct r as [|x r]; [done|]. rewrite scan_after.
    assert (scan ([], String x r) " | docker login --username AWS --password-stdin "
            = Some (([Word (String x r)] ++ [Pipe] ++ (Word <$> login_words))%list, ""))
      as -> by reflexivity.
    reflexivity. }
  cbn [mbind option_bind].
  rewrite scan_word by exact Hhw. cbn [fmap option_fmap option_map].
  change ("" +:+ host) with host.
  destruct host as [|y host]; [done|]. reflexivity.
Qed.

End shell.

Lemma validateConfig_accepts (p : ProfileConfig) :
  validateConfig p = None →
  Region (ECR p) ≠ "" ∧ twelve_digits (AccountID (ECR p)) = true.
Proof.
  rewrite validateConfig_spec. unfold first_failure, spec_checks. cbn [find fst snd].
  case_bool_decide as Hregion; cbn [negb]; [discriminate|].
  case_bool_decide; cbn [negb]; [discriminate|].
  destruct (twelve_digits (AccountID (ECR p))); cbn [negb]; [done | discriminate].
Qed.

Lemma registry_host_is_word (p : ProfileConfig) :
  validateConfig p = None →
  sh.all_word (Region (ECR p)) = true →
  registry_host p ≠ "" ∧ sh.all_word (registry_host p) = true.
Proof.
  intros [_ Hid]%validateConfig_accepts Hregion.
  apply andb_true_iff in Hid as [_ Hdigits%digits_are_words].
  unfold registry_host. split.
  - destruct (AccountID (ECR p)); discriminate.
  - by rewrite !all_word_app, Hdigits, Hregion.
Qed.

(** C9, as amended.  For every validated profile the authenticate step
    formats the registry host as
    [<account_id>.dkr.ecr.<region>.amazonaws.com] and starts [sh -c] on
    the text [aws ecr get-login-password --region <region> | docker login
    --username AWS --password-stdin <host>], the region put in as it is.
    When the region is a single word (letters, digits, [-], [_], [.],
    [/], [:]) the shell reads that text as one pipeline: the command that
    obtains the login password for the region, piped into the login for
    that host under the user name [AWS]. *)
Theorem authenticate_runs_login_pipeline (ecr : ECR') (env : Env) (w : World) :
  validateConfig (Config' ecr) = None →
  fmt.Sprintf "%s.dkr.ecr.%s.amazonaws.com"
    [AccountID (ECR (Config' ecr)); Region (ECR (Config' ecr))]
  = AccountID (ECR (Config' ecr)) +:+ ".dkr.ecr." +:+ Region (ECR (Config' ecr)) +:+
    ".amazonaws.com"
  ∧ ∃ cmd,
      started (snd (authenticate ecr env w)) = (started w ++ [cmd])%list
      ∧ cmd =
          exec.Command "sh"
            ["-c";
             "aws ecr get-login-password --region " +:+ Region (ECR (Config' ecr)) +:+
             " | docker login --username AWS --password-stdin " +:+
             (AccountID (ECR (Config' ecr)) +:+ ".dkr.ecr." +:+
              Region (ECR (Config' ecr)) +:+ ".amazonaws.com")]
      ∧ (sh.all_word (Region (ECR (Config' ecr))) = true →
         runs_login_pipeline (Config' ecr) cmd).
Proof.
  intros Hvalid. split; [apply Sprintf_registry_host|].
  exists (login_command (Config' ecr)).
  split; [by rewrite authenticate_run|]. split; [reflexivity|].
  intros Hword. split; [reflexivity|]. eexists. split; [reflexivity|].
  destruct (registry_host_is_word _ Hvalid Hword) as [Hhost Hhostword].
  apply parse_login_text; [by apply validateConfig_accepts | done..].
Qed.

Lemma authenticate_runs_login_pipeline_witness :
  ∃ cmd,
    started (snd (authenticate {| Config' := scenario |} (example_env "") initial)) = [cmd]
    ∧ runs_login_pipeline scenario cmd.
Proof.
  destruct (authenticate_runs_login_pipeline {| Config' := scenario |} (example_env "") initial
              eq_refl) as (_ & cmd & Hstarted & _ & Hruns).
  exists cmd. split; [exact Hstarted | apply Hruns; reflexivity].
Defined.

(** A validated profile for which the text handed to the shell is not the
    login pipeline: with the region [eu-west-1; id] the shell reads three
    pipelines, and the password command is piped into nothing. *)
Lemma authenticate_pipeline_counterexample :
  validateConfig two_command_region = None
  ∧ ∃ cmd,
      started (snd (authenticate {| Config' := two_command_region |} (example_env "") initial))
      = [cmd]
      ∧ (∃ text, exec.Args cmd = ["-c"; text]
           ∧ sh.parse text =
               Some [ [["aws"; "ecr"; "get-login-password"; "--region"; "eu-west-1"]];
                      [["id"];
                       ["docker"; "login"; "--username"; "AWS"; "--password-stdin";
                        "123456789012.dkr.ecr.eu-west-1"]];
                      [["id.amazonaws.com"]] ])
      ∧ ¬ runs_login_pipeline two_command_region cmd.
Proof.
  split; [reflexivity|].
  exists (login_command two_command_region).
  split; [by rewrite authenticate_run|].
  split; [eexists; split; reflexivity|].
  intros [_ (text & Hargs & Hparse)]. injection Hargs as <-.
  vm_compute in Hparse. discriminate Hparse.
Qed.

(** ** The command line *)

Example parse_help : flag.parse default_flags ["-h"] = flag.ErrHelp.
Proof. reflexivity. Qed.

Example parse_undefined :
  flag.parse default_flags ["-verbose"]
  = flag.Failed "flag provided but not defined: -verbose".
Proof. reflexivity. Qed.

Example parse_forms :
  flag.parse default_flags ["-config=a.yml"; "--profile"; "prod"; "push"; "-h"]
  = flag.Parsed {| configPath := "a.yml"; profile := "prod" |} ["push"; "-h"].
Proof. reflexivity. Qed.

Lemma run_command_parsed (env : Env) (argv0 : string) (args rest : list string) (f : Flags) :
  flag.parse default_flags args = flag.Parsed f rest →
  run_command env argv0 args = (run_main env f, []).
Proof.
  intros Hparse. unfold run_command, command, flag.Parse, run_main. rewrite Hparse.
  by destruct (main f env initial).
Qed.

(** X6.  The exit status of the program is 0, 1 or 2.  It is 2 exactly
    when the command line does not parse, and then nothing has been
    loaded, written to standard output or started.  It is 0 only when the
    usage was asked for, again with nothing loaded, written or started, or
    when the flags parsed, a configuration was loaded, the named profile
    was in it and passed validation, and all four commands ran and
    succeeded. *)
Theorem exit_status_of_command
    (env : Env) (argv0 : string) (args : list string)
    (st : Z) (w : World) (err : list string) :
  run_command env argv0 args = (st, w, err) →
  (st = 0%Z ∨ st = 1%Z ∨ st = 2%Z)
  ∧ (st = 2%Z ↔ ∃ msg, flag.parse default_flags args = flag.Failed msg)
  ∧ (st = 2%Z → w = initial)
  ∧ (st = 0%Z →
     (flag.parse default_flags args = flag.ErrHelp ∧ w = initial)
     ∨ ∃ flags rest config p,
         flag.parse default_flags args = flag.Parsed flags rest
         ∧ fst (loadConfig (configPath flags) env initial) = Val (inl config)
         ∧ Profiles config !! profile flags = Some p
         ∧ validateConfig p = None
         ∧ all_succeed env [] (four_steps p)
         ∧ started w = four_steps p).
Proof.
  destruct (flag.parse default_flags args) as [f rest| |msg] eqn:Hparse.
  - rewrite (run_command_parsed env argv0 args rest f Hparse).
    destruct (run_main env f) as [st' w'] eqn:Hrun. intros [= <- <- <-].
    destruct (exit_status_past_flags env f) as [Hstatus Hzero].
    rewrite Hrun in Hstatus, Hzero. cbn [fst snd] in Hstatus, Hzero.
    split; [tauto|]. split; [|split].
    + split; [intros ->; by destruct Hstatus | intros [msg [=]]].
    + intros ->. by destruct Hstatus.
    + intros H0. right. destruct (Hzero H0) as (config & p & ?).
      by exists f, rest, config, p.
  - unfold run_command, command, flag.Parse. rewrite Hparse. intros [= <- <- <-].
    split; [by left|]. split; [|split]; [split; [done | intros [msg [=]]] | done | by left].
  - unfold run_command, command, flag.Parse. rewrite Hparse. intros [= <- <- <-].
    split; [by right; right|]. split; [|split]; [split; eauto | done | done].
Qed.

Lemma exit_status_of_command_witness :
  ∃ flags rest config p,
    flag.parse default_flags ["-profile"; "dev"] = flag.Parsed flags rest
    ∧ fst (loadConfig (configPath flags) (example_env "") initial) = Val (inl config)
    ∧ Profiles config !! profile flags = Some p
    ∧ validateConfig p = None
    ∧ all_succeed (example_env "") [] (four_steps p)
    ∧ started (snd (run_main (example_env "") default_flags)) = four_steps p.
Proof.
  destruct (exit_status_of_command (example_env "") "pushECR" ["-profile"; "dev"]
              0%Z (snd (run_main (example_env "") default_flags)) [] eq_refl)
    as (_ & _ & _ & Hzero).
  destruct (Hzero eq_refl) as [[Hhelp _] | H]; [discriminate Hhelp | exact H].
Defined.
